(** * gs2xls: the GeoServer catalog report, embedded and verified

    A shallow embedding of [gs2xls.py].  The script reads workspaces, stores,
    layer groups, layers and styles from a GeoServer catalog, normalises them
    into dictionaries, sorts them, writes five worksheets, and then one
    worksheet per layer group whose cells are linked back to the five.

    Conventions of the embedding
    - A Python [str] is a Rocq [string]; its characters are the code points
      below 256, on which [\d] is exactly ['0'..'9'] and [<] on strings is
      the lexicographic order of the codes.
    - A value that may be [None] is a [pyval].  An attribute that an object
      may lack is an [option]: [None] is "no such attribute", [Some PyNone]
      is "the attribute is there and holds None".
    - Names used as keys ([ws.name], [store.name], [layer.name], ...) are
      [str] in gsconfig and are typed [string] here.
    - A Python dictionary with string keys that is only built and read is a
      [gmap]; a dictionary comprehension is a left fold of insertions, so the
      last binding of a key wins.
    - An exception is a [Raise] of the [result] monad.
    - A worksheet row is a record with one typed cell per column, in the
      order of the list given to [ws.append].  Freezing panes, filters and
      zoom act on the sheet, not on cells, and are left out; the widths of
      [adjust_column_width] are computed from the cell values, apart from
      the sheet records.
    - The title of a sheet is the title handed to [create_sheet].  What
      openpyxl itself does with a title or a text it does not accept is not
      code of the script and is not modelled. *)

From Stdlib Require Import Ascii String DecimalString DecimalNat Permutation Sorted.
From stdpp Require Import base list strings gmap.

(* ================================================================== *)
(** * Python values and strings *)

Inductive pyval :=
  | PyNone
  | PyStr (s : string).

#[global] Instance pyval_eq_dec : EqDecision pyval.
Proof. solve_decision. Defined.

Definition pyval_to_option (v : pyval) : option string :=
  match v with PyNone => None | PyStr s => Some s end.

Definition pyval_of_option (o : option string) : pyval :=
  match o with None => PyNone | Some s => PyStr s end.

#[global] Instance pyval_countable : Countable pyval.
Proof.
  refine (inj_countable' pyval_to_option pyval_of_option _).
  by intros [].
Defined.

(** The sentinel of the report. *)
Definition NA : string := "N/A".

(** [str(v)] *)
Definition py_str (v : pyval) : string :=
  match v with
  | PyNone => "None"
  | PyStr s => s
  end.

(** [getattr(obj, name, default)] on an attribute that may be missing. *)
Definition getattr {A : Type} (attribute : option A) (default : A) : A :=
  match attribute with
  | Some v => v
  | None => default
  end.

(** [str(n)] for a non-negative integer. *)
Definition decimal (n : nat) : string := NilZero.string_of_uint (Nat.to_uint n).

(** [', '.join(names)] *)
Definition join (names : list string) : string := String.concat ", " names.

(** [s.split(', ')]: the pieces between the non-overlapping occurrences of
    the separator, found from the left; never an empty list. *)
Fixpoint split (s : string) : list string :=
  match s with
  | EmptyString => [EmptyString]
  | String ","%char (String " "%char rest) => EmptyString :: split rest
  | String c rest =>
      match split rest with
      | piece :: pieces => String c piece :: pieces
      | [] => [String c EmptyString]
      end
  end.

(** [s.replace('cgs:', '')]: every occurrence found from the left is dropped. *)
Fixpoint remove_cgs (s : string) : string :=
  match s with
  | EmptyString => EmptyString
  | String "c"%char (String "g"%char (String "s"%char (String ":"%char rest))) => remove_cgs rest
  | String c rest => String c (remove_cgs rest)
  end.

(** [s[:25]] *)
Definition truncate25 (s : string) : string := substring 0 25 s.

(** Python's [<] on strings. *)
Definition str_lt (a b : string) : bool := String.ltb a b.

(** Python's [<] on tuples of strings: the first position where the two
    differ decides; a proper prefix is smaller. *)
Fixpoint tuple_lt (a b : list string) : bool :=
  match a, b with
  | [], [] => false
  | [], _ :: _ => true
  | _ :: _, [] => false
  | x :: a', y :: b' => if String.eqb x y then tuple_lt a' b' else str_lt x y
  end.

(* ================================================================== *)
(** * Exceptions *)

Inductive exn :=
  | ConnectionError   (* requests.get could not reach the server *)
  | JSONDecodeError   (* response.json() on a body that is not JSON *)
  | AttributeError    (* .get on something that is not a dict *)
  | TypeError         (* iterating None, joining a non-string *)
  | ValueError.       (* a list or dict offered as a cell value *)

Inductive result (A : Type) :=
  | Ok (a : A)
  | Raise (e : exn).
Arguments Ok {A} a.
Arguments Raise {A} e.

Definition bind {A B : Type} (r : result A) (k : A -> result B) : result B :=
  match r with
  | Ok a => k a
  | Raise e => Raise e
  end.

Notation "'let*' x ':=' r 'in' k" := (bind r (fun x => k))
  (at level 10, x name, r at level 100, k at level 200).

(** A loop that collects one result per element and stops at the first
    exception. *)
Fixpoint for_each {A B : Type} (body : A -> result B) (l : list A) : result (list B) :=
  match l with
  | [] => Ok []
  | x :: l' =>
      let* y := body x in
      let* ys := for_each body l' in
      Ok (y :: ys)
  end.

(* ================================================================== *)
(** * [sorted(items, key=...)]

    Python's [sorted] is a stable sort that compares keys with [<] only.  The
    stable sort of a list is unique, so it is modelled by insertion from the
    right, an element going in front of the first one whose key is not
    smaller than its own. *)

Section Sorted.
Context {A K : Type} (lt : K -> K -> bool) (key : A -> K).

Fixpoint insert_by (x : A) (l : list A) : list A :=
  match l with
  | [] => [x]
  | y :: l' => if lt (key y) (key x) then y :: insert_by x l' else x :: y :: l'
  end.

Definition sorted (l : list A) : list A := foldr insert_by [] l.

End Sorted.

(* ================================================================== *)
(** * [extract_epsg_code]: [re.search(r'EPSG:\d+', str(bbox))] *)

Definition is_digit (c : ascii) : bool :=
  (48 <=? nat_of_ascii c) && (nat_of_ascii c <=? 57).

(** The longest run of digits at the start of [s]: the greedy [\d+]. *)
Fixpoint take_digits (s : string) : string :=
  match s with
  | String c rest => if is_digit c then String c (take_digits rest) else EmptyString
  | EmptyString => EmptyString
  end.

(** [s] without the prefix [p], when it starts with it. *)
Fixpoint strip_prefix (p s : string) : option string :=
  match p, s with
  | EmptyString, _ => Some s
  | String a p', String b s' => if Ascii.eqb a b then strip_prefix p' s' else None
  | String _ _, EmptyString => None
  end.

(** The match of the pattern that starts at the first character of [s]. *)
Definition match_here (s : string) : option string :=
  match strip_prefix "EPSG:" s with
  | Some rest =>
      match take_digits rest with
      | EmptyString => None
      | digits => Some ("EPSG:" +:+ digits)
      end
  | None => None
  end.

(** [re.search]: the match at the leftmost position that has one. *)
Fixpoint re_search (s : string) : option string :=
  match match_here s with
  | Some m => Some m
  | None =>
      match s with
      | String _ rest => re_search rest
      | EmptyString => None
      end
  end.

Definition extract_epsg_code (bbox : pyval) : string :=
  match re_search (py_str bbox) with
  | Some m => m
  | None => NA
  end.

(* ================================================================== *)
(** * The REST answers read for styles *)

(** A decoded JSON document, as far as the script looks into it: numbers
    and booleans, which it never reads, are left out, and an object lists
    each of its keys once. *)
#[warnings="-register-all"]
Inductive json :=
  | JNull
  | JStr (s : string)
  | JArr (items : list json)
  | JObj (fields : list (string * json)).

(** The value bound to [key] in a decoded object. *)
Fixpoint assoc (key : string) (fields : list (string * json)) : option json :=
  match fields with
  | [] => None
  | (k, v) :: rest => if String.eqb k key then Some v else assoc key rest
  end.

(** [d.get(key, default)]; only a dict has [get]. *)
Definition json_get (d : json) (key : string) (default : json) : result json :=
  match d with
  | JObj fields => Ok (getattr (assoc key fields) default)
  | _ => Raise AttributeError
  end.

(** What a [for] loop over a decoded value visits: the items of a list, the
    keys of a dict, the characters of a string; None cannot be iterated. *)
Definition py_iter (j : json) : result (list json) :=
  match j with
  | JArr items => Ok items
  | JObj fields => Ok (map (fun kv => JStr (fst kv)) fields)
  | JStr s => Ok (map (fun c => JStr (String c EmptyString)) (list_ascii_of_string s))
  | JNull => Raise TypeError
  end.

(** A decoded value on its way into a cell.  A list or a dict cannot be a
    cell value: the sheet writer raises when it is appended, and the run
    ends there; the embedding raises as soon as the value is produced. *)
Definition as_pyval (j : json) : result pyval :=
  match j with
  | JNull => Ok PyNone
  | JStr s => Ok (PyStr s)
  | JArr _ | JObj _ => Raise ValueError
  end.

(** [', '.join(items)] on decoded values: every item has to be a string. *)
Fixpoint json_strings (items : list json) : result (list string) :=
  match items with
  | [] => Ok []
  | JStr s :: rest => let* names := json_strings rest in Ok (s :: names)
  | _ :: _ => Raise TypeError
  end.

(** The outcome of [requests.get]: a response with its status code and its
    body ([None] when the body is not JSON), or no response at all. *)
Inductive http_result :=
  | Response (status_code : nat) (body : option json)
  | Unreachable.

(** [response.json()] *)
Definition response_json (body : option json) : result json :=
  match body with
  | Some j => Ok j
  | None => Raise JSONDecodeError
  end.

Definition fetch_default_style (response : http_result) : result pyval :=
  match response with
  | Unreachable => Raise ConnectionError
  | Response status_code body =>
      if status_code =? 200 then
        let* layer_data := response_json body in
        let* layer := json_get layer_data "layer" (JObj []) in
        let* default_style := json_get layer "defaultStyle" (JObj []) in
        let* style_info := json_get default_style "name" (JStr NA) in
        as_pyval style_info
      else Ok (PyStr NA)
  end.

(** [[style.get('name', 'N/A') for style in items if isinstance(style, dict)]] *)
Definition style_names_of (items : list json) : list json :=
  omap (fun style =>
          match style with
          | JObj fields => Some (getattr (assoc "name" fields) (JStr NA))
          | _ => None
          end) items.

Definition fetch_available_styles (response : http_result) : result string :=
  match response with
  | Unreachable => Raise ConnectionError
  | Response status_code body =>
      if status_code =? 200 then
        let* layer_data := response_json body in
        let* layer := json_get layer_data "layer" (JObj []) in
        let* styles_data := json_get layer "styles" (JObj []) in
        match styles_data with
        | JObj fields =>
            match assoc "style" fields with
            | Some style_list =>
                let* items := py_iter style_list in
                match style_names_of items with
                | [] => Ok NA
                | available_styles =>
                    let* names := json_strings available_styles in
                    Ok (join names)
                end
            | None => Ok NA
            end
        | _ => Ok NA
        end
      else Ok NA
  end.

(** [fetch_styles]: the list under ["styles"]["style"], or [[]]. *)
Definition fetch_styles (response : http_result) : result json :=
  match response with
  | Unreachable => Raise ConnectionError
  | Response status_code body =>
      if status_code =? 200 then
        let* styles_data := response_json body in
        let* styles := json_get styles_data "styles" (JObj []) in
        json_get styles "style" (JArr [])
      else Ok (JArr [])
  end.

(** The names [write_to_excel] reads off the styles:
    [style.get("name", "N/A")] for each [style]. *)
Definition style_name (style : json) : result pyval :=
  let* name := json_get style "name" (JStr NA) in
  as_pyval name.

Definition style_names (styles : json) : result (list pyval) :=
  let* items := py_iter styles in
  for_each style_name items.

(* ================================================================== *)
(** * The catalog as gsconfig hands it over *)

Definition geoserver_url : string := "https://your-geoserver-url/geoserver/rest".

Record raw_workspace := {
  ws_name : string;
  ws_href : option pyval
}.

Record raw_store := {
  st_workspace : string;          (* store.workspace.name *)
  st_name : string
}.

(** An entry of [group.layers]: a plain name, or an object with a [name]. *)
Inductive member :=
  | MemberName (name : string)
  | MemberObject (name : string).

(** [layer.name if hasattr(layer, 'name') else layer] *)
Definition member_label (m : member) : string :=
  match m with
  | MemberObject name => name
  | MemberName name => name
  end.

(** [layer if isinstance(layer, str) else layer.name] *)
Definition member_key (m : member) : string :=
  match m with
  | MemberName name => name
  | MemberObject name => name
  end.

Record raw_group := {
  (* [group.workspace]: None, or an object that may lack a name *)
  g_workspace : option (option string);
  g_name : option string;
  g_bounds : option pyval;
  g_title : option pyval;
  g_mode : option pyval;
  g_layers : list member
}.

Record raw_store_ref := {
  sr_workspace : string;          (* resource.store.workspace.name *)
  sr_name : option string
}.

Record raw_resource := {
  r_store : option raw_store_ref; (* None when [resource.store] is None *)
  r_latlon_bbox : option pyval;   (* the box, known by its [str()] *)
  r_title : option pyval;
  r_abstract : option pyval
}.

(** A layer of [cat.get_layers()] with the answers to the two requests the
    script sends for it. *)
Record raw_layer := {
  l_name : string;
  l_resource : raw_resource;
  l_default_style_response : http_result;
  l_styles_response : http_result
}.

(* ================================================================== *)
(** * The normalised dictionaries *)

Record workspace := {
  w_name : string;
  w_href : pyval
}.

Record store := {
  s_workspace_name : string;
  s_store_name : string;
  s_store_url : string
}.

Record group := {
  grp_workspace_name : string;
  grp_group_name : string;
  grp_title : pyval;
  grp_crs : string;
  grp_bounds : string;
  grp_mode : pyval;
  grp_layers : string
}.

Record layer := {
  lyr_workspace_name : string;
  lyr_store : string;
  lyr_group_name : string;
  lyr_name : string;
  lyr_title : pyval;
  lyr_default_style : pyval;
  lyr_available_styles : string;
  lyr_crs : string;
  lyr_bbox : pyval;
  lyr_abstract : pyval
}.

(* ------------------------------------------------------------------ *)
(** ** [fetch_workspace_details] *)

Definition workspace_details (ws : raw_workspace) : workspace :=
  {| w_name := ws_name ws;
     w_href := getattr (ws_href ws) (PyStr NA) |}.

Definition fetch_workspace_details (cat : list raw_workspace) : list workspace :=
  map workspace_details cat.

(* ------------------------------------------------------------------ *)
(** ** [fetch_store_details] *)

Definition store_details (st : raw_store) : store :=
  {| s_workspace_name := st_workspace st;
     s_store_name := st_name st;
     s_store_url := geoserver_url +:+ "/workspaces/" +:+ st_workspace st
                    +:+ "/datastores/" +:+ st_name st +:+ ".html" |}.

Definition store_key (x : store) : list string :=
  [s_workspace_name x; s_store_name x].

Definition sort_stores (stores : list store) : list store :=
  sorted tuple_lt store_key stores.

Definition fetch_store_details (cat : list raw_store) : list store :=
  sort_stores (map store_details cat).

(* ------------------------------------------------------------------ *)
(** ** [fetch_group_details] *)

Definition group_parent_name (g : raw_group) : string := getattr (g_name g) NA.

Definition group_details (g : raw_group) : group :=
  let workspace_name :=
    match g_workspace g with
    | Some workspace => getattr workspace NA
    | None => NA
    end in
  let parent_name := group_parent_name g in
  let bounds := getattr (g_bounds g) (PyStr NA) in
  let title := getattr (g_title g) (PyStr NA) in
  let mode := getattr (g_mode g) (PyStr NA) in
  let layers := join (map member_label (g_layers g)) in
  let crs := extract_epsg_code (PyStr (py_str bounds)) in
  {| grp_workspace_name := workspace_name;
     grp_group_name := parent_name;
     grp_title := title;
     grp_crs := crs;
     grp_bounds := py_str bounds;
     grp_mode := mode;
     grp_layers := layers |}.

(** The inner loop: [group_to_layers[name] = parent_name] for each member. *)
Definition associate (group_to_layers : gmap string string) (g : raw_group)
  : gmap string string :=
  foldl (fun d m => <[member_key m := group_parent_name g]> d)
        group_to_layers (g_layers g).

Definition sort_groups (groups : list group) : list group :=
  sorted str_lt grp_group_name groups.

Definition reverse_index (cat : list raw_group) : gmap string string :=
  foldl associate ∅ cat.

Definition fetch_group_details (cat : list raw_group)
  : list group * gmap string string :=
  (sort_groups (map group_details cat), reverse_index cat).

(* ------------------------------------------------------------------ *)
(** ** [fetch_layer_details] *)

(** [group_to_layers.get(layer.name, 'N/A')] *)
Definition parent_group (group_to_layers : gmap string string) (name : string) : string :=
  getattr (group_to_layers !! name) NA.

(** The dictionary appended for one layer, once its two style fields are
    known. *)
Definition layer_record (group_to_layers : gmap string string) (l : raw_layer)
    (default_style : pyval) (available_styles : string) : layer :=
  let resource := l_resource l in
  let bbox := getattr (r_latlon_bbox resource) (PyStr NA) in
  {| lyr_workspace_name :=
       match r_store resource with Some st => sr_workspace st | None => NA end;
     lyr_store :=
       match r_store resource with Some st => getattr (sr_name st) NA | None => NA end;
     lyr_group_name := parent_group group_to_layers (l_name l);
     lyr_name := l_name l;
     lyr_title := getattr (r_title resource) (PyStr NA);
     lyr_default_style := default_style;
     lyr_available_styles := available_styles;
     lyr_crs := extract_epsg_code bbox;
     lyr_bbox := bbox;
     lyr_abstract := getattr (r_abstract resource) (PyStr NA) |}.

Definition layer_details (group_to_layers : gmap string string) (l : raw_layer)
  : result layer :=
  let* default_style := fetch_default_style (l_default_style_response l) in
  let* available_styles := fetch_available_styles (l_styles_response l) in
  Ok (layer_record group_to_layers l default_style available_styles).

Definition layer_key (x : layer) : list string :=
  [lyr_workspace_name x; lyr_store x; lyr_group_name x; lyr_name x].

Definition sort_layers (layers : list layer) : list layer :=
  sorted tuple_lt layer_key layers.

Definition fetch_layer_details (group_to_layers : gmap string string)
    (cat : list raw_layer) : result (list layer) :=
  let* layers := for_each (layer_details group_to_layers) cat in
  Ok (sort_layers layers).

(* ================================================================== *)
(** * Worksheets *)

Inductive font :=
  | default_font
  | named_style_font      (* the font a named style brings with it *)
  | dark_blue_font.

Record cell (A : Type) := Cell {
  value : A;
  hyperlink : option string;
  style : string;
  cell_font : font
}.
Arguments Cell {A} _ _ _ _.
Arguments value {A} _.
Arguments hyperlink {A} _.
Arguments style {A} _.
Arguments cell_font {A} _.

(** What the sheet writer needs to know of a cell's content.  openpyxl's
    hyperlink setter gives a cell whose value is None the target of the link
    as its value; a cell that holds a string keeps it. *)
Class CellValue (A : Type) := {
  (* the content once a link to [target] is attached *)
  fill_empty : string -> A -> A;
  (* [cell.value == 'N/A'] *)
  is_na : A -> bool
}.

#[global] Instance string_cell_value : CellValue string := {|
  fill_empty := fun _ s => s;
  is_na := fun s => String.eqb s NA
|}.

#[global] Instance pyval_cell_value : CellValue pyval := {|
  fill_empty := fun target v => match v with PyNone => PyStr target | PyStr _ => v end;
  is_na := fun v => match v with PyStr s => String.eqb s NA | PyNone => false end
|}.

(** A fresh cell, as [ws.append] makes it. *)
Definition new_cell {A : Type} (v : A) : cell A := Cell v None "Normal" default_font.

(** [cell.value = v] *)
Definition set_value {A : Type} (v : A) (c : cell A) : cell A :=
  Cell v (hyperlink c) (style c) (cell_font c).

(** [cell.hyperlink = target] *)
Definition set_hyperlink {A : Type} `{CellValue A} (target : string) (c : cell A) : cell A :=
  Cell (fill_empty target (value c)) (Some target) (style c) (cell_font c).

(** [cell.style = name]: the named style replaces the cell's formatting. *)
Definition set_style {A : Type} (name : string) (c : cell A) : cell A :=
  Cell (value c) (hyperlink c) name named_style_font.

(** [cell.hyperlink = target; cell.style = "Hyperlink"] *)
Definition link_to {A : Type} `{CellValue A} (target : string) (c : cell A) : cell A :=
  set_style "Hyperlink" (set_hyperlink target c).

(** The body of [apply_na_color] for one cell. *)
Definition na_color {A : Type} `{CellValue A} (c : cell A) : cell A :=
  if is_na (value c) then Cell (value c) (hyperlink c) (style c) dark_blue_font else c.

Record sheet (R : Type) := Sheet {
  sheet_title : string;
  tab_color : option string;
  header : list (cell string);
  rows : list R
}.
Arguments Sheet {R} _ _ _ _.
Arguments sheet_title {R} _.
Arguments tab_color {R} _.
Arguments header {R} _.
Arguments rows {R} _.

Definition map_rows {R : Type} (f : R -> R) (ws : sheet R) : sheet R :=
  Sheet (sheet_title ws) (tab_color ws) (header ws) (f <$> rows ws).

(** [ws.cell(row=1, column=i+1)] gets a link. *)
Definition link_header {R : Type} (i : nat) (target : string) (ws : sheet R) : sheet R :=
  Sheet (sheet_title ws) (tab_color ws) (alter (link_to target) i (header ws)) (rows ws).

(** The rows of the six kinds of sheet, a field per column. *)
Record workspace_row := {
  wsr_name : cell string;
  wsr_href : cell pyval
}.

Record store_row := {
  sto_workspace : cell string;
  sto_name : cell string;
  sto_url : cell string
}.

Record layer_group_row := {
  lgr_name : cell string;
  lgr_title : cell pyval;
  lgr_crs : cell string;
  lgr_bounds : cell string;
  lgr_mode : cell pyval;
  lgr_layers : cell string
}.

Record layer_row := {
  lay_workspace : cell string;
  lay_store : cell string;
  lay_group : cell string;
  lay_name : cell string;
  lay_title : cell pyval;
  lay_default_style : cell pyval;
  lay_available_styles : cell string;
  lay_crs : cell string;
  lay_bbox : cell string;
  lay_abstract : cell pyval
}.

Record style_row := {
  sty_name : cell pyval;
  sty_link : cell string
}.

Record group_row := {
  c_workspace : cell string;     (* row[0] *)
  c_store : cell string;         (* row[1] *)
  c_group : cell string;         (* row[2] *)
  c_group_title : cell pyval;    (* row[3] *)
  c_type : cell string;          (* row[4] *)
  c_layer : cell string;         (* row[5] *)
  c_child_title : cell pyval;    (* row[6] *)
  c_style : cell pyval           (* row[7] *)
}.

Record workbook := {
  Workspaces : sheet workspace_row;
  Stores : sheet store_row;
  LayerGroups : sheet layer_group_row;
  Layers : sheet layer_row;
  Styles : sheet style_row
}.

(** [apply_na_color], sheet by sheet. *)
Definition apply_na_color {R : Type} (row_color : R -> R) (ws : sheet R) : sheet R :=
  Sheet (sheet_title ws) (tab_color ws) (na_color <$> header ws) (row_color <$> rows ws).

Definition workspace_row_color (r : workspace_row) : workspace_row :=
  {| wsr_name := na_color (wsr_name r); wsr_href := na_color (wsr_href r) |}.

Definition store_row_color (r : store_row) : store_row :=
  {| sto_workspace := na_color (sto_workspace r);
     sto_name := na_color (sto_name r);
     sto_url := na_color (sto_url r) |}.

Definition layer_group_row_color (r : layer_group_row) : layer_group_row :=
  {| lgr_name := na_color (lgr_name r);
     lgr_title := na_color (lgr_title r);
     lgr_crs := na_color (lgr_crs r);
     lgr_bounds := na_color (lgr_bounds r);
     lgr_mode := na_color (lgr_mode r);
     lgr_layers := na_color (lgr_layers r) |}.

Definition layer_row_color (r : layer_row) : layer_row :=
  {| lay_workspace := na_color (lay_workspace r);
     lay_store := na_color (lay_store r);
     lay_group := na_color (lay_group r);
     lay_name := na_color (lay_name r);
     lay_title := na_color (lay_title r);
     lay_default_style := na_color (lay_default_style r);
     lay_available_styles := na_color (lay_available_styles r);
     lay_crs := na_color (lay_crs r);
     lay_bbox := na_color (lay_bbox r);
     lay_abstract := na_color (lay_abstract r) |}.

Definition style_row_color (r : style_row) : style_row :=
  {| sty_name := na_color (sty_name r); sty_link := na_color (sty_link r) |}.

Definition group_row_color (r : group_row) : group_row :=
  {| c_workspace := na_color (c_workspace r);
     c_store := na_color (c_store r);
     c_group := na_color (c_group r);
     c_group_title := na_color (c_group_title r);
     c_type := na_color (c_type r);
     c_layer := na_color (c_layer r);
     c_child_title := na_color (c_child_title r);
     c_style := na_color (c_style r) |}.

(* ------------------------------------------------------------------ *)
(** ** Dictionaries built by comprehension *)

(** [{k: v for (k, v) in items}] *)
Definition dict_of {K V : Type} `{Countable K} (items : list (K * V)) : gmap K V :=
  foldl (fun d kv => <[kv.1 := kv.2]> d) ∅ items.

(** [{key: f"{prefix}{idx+2}" for idx, key in enumerate(keys)}]: the cell
    address of each key, data rows starting in row 2. *)
Definition address_lookup {K : Type} `{Countable K} (prefix : string) (keys : list K)
  : gmap K string :=
  dict_of (imap (fun idx key => (key, prefix +:+ decimal (idx + 2))) keys).

(** [d.keys()] of a dictionary filled in the order of [keys]: each key once,
    where it was first inserted. *)
Definition dict_keys (keys : list string) : list string :=
  foldl (fun seen k => if bool_decide (k ∈ seen) then seen else seen ++ [k]) [] keys.

(** [if cell.value in lookup: cell.hyperlink = f"{prefix}{lookup[...]}";
    cell.style = "Hyperlink"] *)
Definition link_from {K : Type} `{Countable K} `{CellValue K}
    (lookup : gmap K string) (prefix : string) (c : cell K) : cell K :=
  match lookup !! value c with
  | Some address => link_to (prefix +:+ address) c
  | None => c
  end.

(* ------------------------------------------------------------------ *)
(** ** The five sheets of [write_to_excel] *)

Definition text_cells (titles : list string) : list (cell string) := new_cell <$> titles.

Definition workspaces_sheet (workspaces : list workspace) : sheet workspace_row :=
  apply_na_color workspace_row_color
    (Sheet "Workspaces" None (text_cells ["Workspace Name"; "HREF"])
       ((fun w => {| wsr_name := new_cell (w_name w);
                     wsr_href := new_cell (w_href w) |}) <$> workspaces)).

Definition stores_sheet (workspaces : list workspace) (stores : list store)
  : sheet store_row :=
  let workspace_lookup := address_lookup "Workspaces!A" (w_name <$> workspaces) in
  apply_na_color store_row_color
    (Sheet "Stores" None (text_cells ["Workspace Name"; "Store Name"; "Store URL"])
       ((fun st => {| sto_workspace :=
                        link_from workspace_lookup "#" (new_cell (s_workspace_name st));
                      sto_name := new_cell (s_store_name st);
                      sto_url := new_cell (s_store_url st) |}) <$> stores)).

(** The title of a group's own sheet. *)
Definition group_sheet_title (group_name : string) : string :=
  "Group " +:+ truncate25 group_name.

(** The links of the 'Group Name' column: the [idx]-th key of
    [group_worksheets] goes to the cell of data row [idx]. *)
Definition link_group_names (keys : list string) (rows : list layer_group_row)
  : list layer_group_row :=
  imap (fun idx r =>
          match keys !! idx with
          | Some group_name =>
              {| lgr_name := link_to ("#'" +:+ group_sheet_title group_name +:+ "'!A1")
                                     (lgr_name r);
                 lgr_title := lgr_title r;
                 lgr_crs := lgr_crs r;
                 lgr_bounds := lgr_bounds r;
                 lgr_mode := lgr_mode r;
                 lgr_layers := lgr_layers r |}
          | None => r
          end) rows.

Definition add_header_hyperlinks_layer_groups {R : Type} (ws : sheet R) : sheet R :=
  link_header 5 "#'Layers'!A1" ws.

Definition layer_groups_sheet (groups : list group) : sheet layer_group_row :=
  let ws_groups :=
    apply_na_color layer_group_row_color
      (Sheet "Layer Groups" None
         (text_cells ["Group Name"; "Title"; "CRS"; "Bounds"; "Mode"; "Layers"])
         ((fun g => {| lgr_name := new_cell (grp_group_name g);
                       lgr_title := new_cell (grp_title g);
                       lgr_crs := new_cell (grp_crs g);
                       lgr_bounds := new_cell (grp_bounds g);
                       lgr_mode := new_cell (grp_mode g);
                       lgr_layers := new_cell (grp_layers g) |}) <$> groups)) in
  let group_worksheets := dict_keys (grp_group_name <$> groups) in
  add_header_hyperlinks_layer_groups
    (Sheet (sheet_title ws_groups) (tab_color ws_groups) (header ws_groups)
       (link_group_names group_worksheets (rows ws_groups))).

Definition add_header_hyperlinks_layers {R : Type} (ws : sheet R) : sheet R :=
  link_header 5 "#'Styles'!A1"
    (link_header 2 "#'Layer Groups'!A1"
       (link_header 1 "#'Stores'!A1"
          (link_header 0 "#'Workspaces'!A1" ws))).

Definition layers_sheet (layers : list layer) : sheet layer_row :=
  apply_na_color layer_row_color
    (add_header_hyperlinks_layers
       (Sheet "Layers" None
          (text_cells ["Workspace Name"; "Store Name"; "Group Name"; "Layer Name";
                       "Child title"; "Default style"; "Available styles"; "CRS";
                       "Bounding Box"; "Abstract"])
          ((fun l => {| lay_workspace := new_cell (lyr_workspace_name l);
                        lay_store := new_cell (lyr_store l);
                        lay_group := new_cell (lyr_group_name l);
                        lay_name := new_cell (lyr_name l);
                        lay_title := new_cell (lyr_title l);
                        lay_default_style := new_cell (lyr_default_style l);
                        lay_available_styles := new_cell (lyr_available_styles l);
                        lay_crs := new_cell (lyr_crs l);
                        lay_bbox := new_cell (py_str (lyr_bbox l));
                        lay_abstract := new_cell (lyr_abstract l) |}) <$> layers))).

Definition styles_base : string :=
  "https://csg-geoserver.university.innopolis.ru/geoserver/rest/workspaces/cgs/styles/".

Definition styles_sheet (names : list pyval) : sheet style_row :=
  apply_na_color style_row_color
    (Sheet "Styles" None (text_cells ["Style name"; "Style link"])
       ((fun style_name =>
           let style_link := styles_base +:+ py_str style_name +:+ ".html" in
           let sld_link := styles_base +:+ py_str style_name +:+ ".sld" in
           {| sty_name := link_to sld_link (new_cell style_name);
              sty_link := set_hyperlink style_link (new_cell style_link) |}) <$> names)).

Definition main_sheets (workspaces : list workspace) (stores : list store)
    (groups : list group) (layers : list layer) (names : list pyval) : workbook :=
  {| Workspaces := workspaces_sheet workspaces;
     Stores := stores_sheet workspaces stores;
     LayerGroups := layer_groups_sheet groups;
     Layers := layers_sheet layers;
     Styles := styles_sheet names |}.

(* ------------------------------------------------------------------ *)
(** ** The sheet of one layer group *)

(** The row appended for one piece of [group['layers'].split(', ')]. *)
Definition member_row (layers : list layer) (g : group) (layer_name : string) : group_row :=
  match find (fun l => String.eqb (lyr_name l) layer_name) layers with
  | Some matching_layer =>
      {| c_workspace := new_cell (lyr_workspace_name matching_layer);
         c_store := new_cell (lyr_store matching_layer);
         c_group := new_cell (grp_group_name g);
         c_group_title := new_cell (grp_title g);
         c_type := new_cell "Layer";
         c_layer := new_cell (lyr_name matching_layer);
         c_child_title := new_cell (lyr_title matching_layer);
         c_style := new_cell (lyr_default_style matching_layer) |}
  | None =>
      {| c_workspace := new_cell (grp_workspace_name g);
         c_store := new_cell NA;
         c_group := new_cell (grp_group_name g);
         c_group_title := new_cell (grp_title g);
         c_type := new_cell "Layer Group";
         c_layer := new_cell layer_name;
         c_child_title := new_cell (PyStr NA);
         c_style := new_cell (PyStr NA) |}
  end.

Definition member_rows (layers : list layer) (g : group) : sheet group_row :=
  Sheet (group_sheet_title (grp_group_name g)) (Some "ADD8E6")
    (text_cells ["Workspace"; "Store"; "Group"; "Group title"; "Type"; "Layer";
                 "Child title"; "Style"])
    (member_row layers g <$> split (grp_layers g)).

Definition with_child_title (c : cell pyval) (r : group_row) : group_row :=
  {| c_workspace := c_workspace r; c_store := c_store r; c_group := c_group r;
     c_group_title := c_group_title r; c_type := c_type r; c_layer := c_layer r;
     c_child_title := c; c_style := c_style r |}.

Definition with_layer (c : cell string) (r : group_row) : group_row :=
  {| c_workspace := c_workspace r; c_store := c_store r; c_group := c_group r;
     c_group_title := c_group_title r; c_type := c_type r; c_layer := c;
     c_child_title := c_child_title r; c_style := c_style r |}.

(** [{row[0]: row[1] for row in wb['Layer Groups'].iter_rows(min_row=2, values_only=True)}] *)
Definition layer_group_map (wb : workbook) : gmap string pyval :=
  dict_of ((fun r => (value (lgr_name r), value (lgr_title r))) <$> rows (LayerGroups wb)).

Definition populate_child_title_row (wb : workbook) (row : group_row) : group_row :=
  if String.eqb (value (c_type row)) "Layer Group" then
    let layer_name := remove_cgs (value (c_layer row)) in
    match layer_group_map wb !! layer_name with
    | Some title => with_child_title (set_value title (c_child_title row)) row
    | None => row
    end
  else row.

Definition populate_child_title (wb : workbook) (ws : sheet group_row) : sheet group_row :=
  map_rows (populate_child_title_row wb) ws.

Definition add_header_hyperlinks {R : Type} (ws : sheet R) : sheet R :=
  link_header 7 "#'Styles'!A1"
    (link_header 5 "#'Layers'!A1"
       (link_header 2 "#'Layer Groups'!A1"
          (link_header 1 "#'Stores'!A1"
             (link_header 0 "#'Workspaces'!A1" ws)))).

(** The key columns of the five sheets, as
    [iter_rows(min_row=2, values_only=True)] reads them. *)
Definition workspace_names (wb : workbook) : list string :=
  (fun r => value (wsr_name r)) <$> rows (Workspaces wb).
Definition store_names (wb : workbook) : list string :=
  (fun r => value (sto_name r)) <$> rows (Stores wb).
Definition group_names (wb : workbook) : list string :=
  (fun r => value (lgr_name r)) <$> rows (LayerGroups wb).
Definition layer_names (wb : workbook) : list string :=
  (fun r => value (lay_name r)) <$> rows (Layers wb).
Definition style_keys (wb : workbook) : list pyval :=
  (fun r => value (sty_name r)) <$> rows (Styles wb).

Definition workspace_lookup (wb : workbook) := address_lookup "Workspaces!A" (workspace_names wb).
Definition store_lookup (wb : workbook) := address_lookup "Stores!B" (store_names wb).
Definition group_lookup (wb : workbook) := address_lookup "A" (group_names wb).
Definition layer_lookup (wb : workbook) := address_lookup "Layers!D" (layer_names wb).
Definition style_lookup (wb : workbook) := address_lookup "Styles!A" (style_keys wb).

Definition link_columns_row (wb : workbook) (row : group_row) : group_row :=
  {| c_workspace := link_from (workspace_lookup wb) "#" (c_workspace row);
     c_store := link_from (store_lookup wb) "#" (c_store row);
     c_group := link_from (group_lookup wb) "#'Layer Groups'!" (c_group row);
     c_group_title := c_group_title row;
     c_type := c_type row;
     c_layer := link_from (layer_lookup wb) "#" (c_layer row);
     c_child_title := c_child_title row;
     c_style := link_from (style_lookup wb) "#" (c_style row) |}.

Definition link_columns_with_sheets (ws : sheet group_row) (wb : workbook)
  : sheet group_row :=
  map_rows (link_columns_row wb) ws.

Definition add_layer_group_hyperlinks_row (wb : workbook) (row : group_row) : group_row :=
  if String.eqb (value (c_type row)) "Layer Group" then
    let layer_name := remove_cgs (value (c_layer row)) in
    match group_lookup wb !! layer_name with
    | Some address => with_layer (link_to ("#'Layer Groups'!" +:+ address) (c_layer row)) row
    | None => row
    end
  else row.

Definition add_layer_group_hyperlinks (wb : workbook) (ws : sheet group_row)
  : sheet group_row :=
  map_rows (add_layer_group_hyperlinks_row wb) ws.

(** The cross-reference pass over a group's sheet. *)
Definition annotate (wb : workbook) (ws : sheet group_row) : sheet group_row :=
  add_layer_group_hyperlinks wb (link_columns_with_sheets ws wb).

(** One turn of the loop of [create_group_worksheets]. *)
Definition create_group_worksheet (wb : workbook) (layers : list layer) (g : group)
  : sheet group_row :=
  apply_na_color group_row_color
    (annotate wb (add_header_hyperlinks (populate_child_title wb (member_rows layers g)))).

Definition create_group_worksheets (wb : workbook) (groups : list group)
    (layers : list layer) : list (sheet group_row) :=
  create_group_worksheet wb layers <$> groups.

(** [write_to_excel]: the five sheets and the sheets of the groups. *)
Definition write_to_excel (workspaces : list workspace) (stores : list store)
    (groups : list group) (layers : list layer) (styles : json)
  : result (workbook * list (sheet group_row)) :=
  let* names := style_names styles in
  let wb := main_sheets workspaces stores groups layers names in
  Ok (wb, create_group_worksheets wb groups layers).

(* ------------------------------------------------------------------ *)
(** ** The whole run *)

Record catalog := {
  cat_workspaces : list raw_workspace;
  cat_stores : list raw_store;
  cat_layergroups : list raw_group;
  cat_layers : list raw_layer;
  cat_styles_response : http_result
}.

Definition run (cat : catalog) : result (workbook * list (sheet group_row)) :=
  let workspaces := fetch_workspace_details (cat_workspaces cat) in
  let stores := fetch_store_details (cat_stores cat) in
  let '(groups, group_to_layers) := fetch_group_details (cat_layergroups cat) in
  let* layers := fetch_layer_details group_to_layers (cat_layers cat) in
  let* styles := fetch_styles (cat_styles_response cat) in
  write_to_excel workspaces stores groups layers styles.

(* ------------------------------------------------------------------ *)
(** ** [adjust_column_width] *)

(** One turn of the inner loop.  The length of [str(cell.value)] is compared
    with the maximum so far; when it is larger, [len(cell.value)] becomes
    the maximum.  For an empty cell that [len] raises inside the [try] and
    the [except] passes, so the maximum stays. *)
Definition longer (max_length : nat) (v : pyval) : nat :=
  match v with
  | PyStr s => if max_length <? String.length s then String.length s else max_length
  | PyNone => max_length
  end.

(** [min(max_length + 2, 50)] for one column. *)
Definition column_width (cells : list pyval) : nat :=
  let max_length := foldl longer 0 cells in
  Nat.min (max_length + 2) 50.

(** The [j]-th column of a sheet given row by row, header first. *)
Definition column (j : nat) (values : list (list pyval)) : list pyval :=
  omap (fun row => row !! j) values.

(** The widths set for the first [n_columns] columns. *)
Definition adjust_column_width (n_columns : nat) (values : list (list pyval)) : list nat :=
  (fun j => column_width (column j values)) <$> seq 0 n_columns.

(* ================================================================== *)
(** * Vocabulary of the statements *)

(** ** Texts *)

(** Every character of [s] is a digit. *)
Definition all_digits (s : string) : Prop :=
  Forall (fun c => is_digit c = true) (list_ascii_of_string s).

Definition starts_with_digit (s : string) : bool :=
  match s with
  | String c _ => is_digit c
  | EmptyString => false
  end.

(** The separator [", "] occurs in [s]. *)
Fixpoint contains_separator (s : string) : bool :=
  match s with
  | EmptyString => false
  | String ","%char (String " "%char _) => true
  | String _ rest => contains_separator rest
  end.

(** ** Order *)


(** ** Normalised attributes and the rows that show them *)

(** The names in [group.layers], as the reverse index keys them. *)
Definition member_keys (g : raw_group) : list string := member_key <$> g_layers g.





(** The layer document has no ["layer"]["defaultStyle"]["name"]: one of the
    three keys is missing on the way. *)
Definition lacks_default_style_name (doc : list (string * json)) : Prop :=
  assoc "layer" doc = None \/
  exists layer, assoc "layer" doc = Some (JObj layer) /\
    (assoc "defaultStyle" layer = None \/
     exists default_style, assoc "defaultStyle" layer = Some (JObj default_style) /\
                           assoc "name" default_style = None).

(** The layer document has no ["layer"]["styles"]["style"]. *)
Definition lacks_style_list (doc : list (string * json)) : Prop :=
  assoc "layer" doc = None \/
  exists layer, assoc "layer" doc = Some (JObj layer) /\
    (assoc "styles" layer = None \/
     exists styles, assoc "styles" layer = Some (JObj styles) /\
                    assoc "style" styles = None).

(** The lists handed to [ws.append] for a workspace, a group and a layer. *)
Definition workspace_values (w : workspace) : list pyval :=
  [PyStr (w_name w); w_href w].

Definition group_values (g : group) : list pyval :=
  [PyStr (grp_group_name g); grp_title g; PyStr (grp_crs g); PyStr (grp_bounds g);
   grp_mode g; PyStr (grp_layers g)].

Definition layer_values (l : layer) : list pyval :=
  [PyStr (lyr_workspace_name l); PyStr (lyr_store l); PyStr (lyr_group_name l);
   PyStr (lyr_name l); lyr_title l; lyr_default_style l;
   PyStr (lyr_available_styles l); PyStr (lyr_crs l); PyStr (py_str (lyr_bbox l));
   lyr_abstract l].

(** The values of a row, as [iter_rows(values_only=True)] gives them. *)
Definition workspace_row_values (r : workspace_row) : list pyval :=
  [PyStr (value (wsr_name r)); value (wsr_href r)].

Definition layer_group_row_values (r : layer_group_row) : list pyval :=
  [PyStr (value (lgr_name r)); value (lgr_title r); PyStr (value (lgr_crs r));
   PyStr (value (lgr_bounds r)); value (lgr_mode r); PyStr (value (lgr_layers r))].

Definition layer_row_values (r : layer_row) : list pyval :=
  [PyStr (value (lay_workspace r)); PyStr (value (lay_store r));
   PyStr (value (lay_group r)); PyStr (value (lay_name r)); value (lay_title r);
   value (lay_default_style r); PyStr (value (lay_available_styles r));
   PyStr (value (lay_crs r)); PyStr (value (lay_bbox r)); value (lay_abstract r)].

Definition row_values (r : group_row) : list pyval :=
  [PyStr (value (c_workspace r)); PyStr (value (c_store r)); PyStr (value (c_group r));
   value (c_group_title r); PyStr (value (c_type r)); PyStr (value (c_layer r));
   value (c_child_title r); value (c_style r)].

(** The values of a group's sheet, header first. *)
Definition sheet_values (ws : sheet group_row) : list (list pyval) :=
  (PyStr <$> (value <$> header ws)) :: (row_values <$> rows ws).

(** ** Rows of a group's sheet *)

(** [i] is the last position of [k] in [keys]. *)
Definition last_position {K : Type} (keys : list K) (k : K) (i : nat) : Prop :=
  keys !! i = Some k /\ forall j, i < j -> keys !! j <> Some k.

(** What a row of a group's sheet holds when it is typed "Layer Group",
    [wanted] being the group name looked for on behalf of the member. *)
Definition layer_group_member (wanted : string -> string) (groups : list group)
    (g : group) (member_name : string) (row : group_row) : Prop :=
  value (c_workspace row) = grp_workspace_name g /\
  value (c_store row) = NA /\
  value (c_type row) = "Layer Group" /\
  value (c_layer row) = member_name /\
  value (c_style row) = PyStr NA /\
  ((exists i g', groups !! i = Some g' /\
                 last_position (grp_group_name <$> groups) (wanted member_name) i /\
                 value (c_child_title row) = grp_title g')
   \/ ((wanted member_name ∉ grp_group_name <$> groups) /\
       value (c_child_title row) = PyStr NA)).

(** The rule of the cross-reference pass for one cell of a linked column:
    a value found among [keys] gets a link to the last row that holds it
    (data row [i] is row [i + 2] of its sheet), any other value leaves the
    cell as it was. *)
Definition cross_referenced {K : Type} (keys : list K) (prefix : string)
    (before after : cell K) : Prop :=
  (value before ∈ keys ->
     exists i, last_position keys (value before) i /\
               hyperlink after = Some (prefix +:+ decimal (i + 2)) /\
               style after = "Hyperlink")
  /\ (value before ∉ keys -> after = before).

(** A row of a group's sheet before and after the cross-reference pass.
    The Workspace, Store, Group and Style cells follow the rule of their
    column.  The Layer cell of a row typed "Layer Group" whose name, with
    every ["cgs:"] taken out, is a group name points at that group's row;
    any other Layer cell follows the rule of the Layers sheet.  The cells of
    the three other columns are as they were. *)
Definition annotated_row (wb : workbook) (before after : group_row) : Prop :=
  cross_referenced (workspace_names wb) "#Workspaces!A"
    (c_workspace before) (c_workspace after) /\
  cross_referenced (store_names wb) "#Stores!B" (c_store before) (c_store after) /\
  cross_referenced (group_names wb) "#'Layer Groups'!A" (c_group before) (c_group after) /\
  cross_referenced (style_keys wb) "#Styles!A" (c_style before) (c_style after) /\
  c_group_title after = c_group_title before /\
  c_type after = c_type before /\
  c_child_title after = c_child_title before /\
  (value (c_type before) = "Layer Group" ->
   remove_cgs (value (c_layer before)) ∈ group_names wb ->
   exists i, last_position (group_names wb) (remove_cgs (value (c_layer before))) i /\
             hyperlink (c_layer after) = Some ("#'Layer Groups'!A" +:+ decimal (i + 2)) /\
             style (c_layer after) = "Hyperlink") /\
  (value (c_type before) <> "Layer Group" \/
   (remove_cgs (value (c_layer before)) ∉ group_names wb) ->
   cross_referenced (layer_names wb) "#Layers!D" (c_layer before) (c_layer after)).

(** ** Further vocabulary *)

(** The text ["cgs:"] occurs in [s]. *)
Fixpoint contains_cgs (s : string) : bool :=
  match s with
  | EmptyString => false
  | String "c"%char (String "g"%char (String "s"%char (String ":"%char _))) => true
  | String _ rest => contains_cgs rest
  end.

(** A decoded value is an object (a dict). *)
Definition is_object (j : json) : bool :=
  match j with
  | JObj _ => true
  | _ => false
  end.

(** A decoded value is a string. *)
Definition is_text (j : json) : bool :=
  match j with
  | JStr _ => true
  | _ => false
  end.

(** The layer document whose style list is [items], and a style entry that
    has just a name. *)
Definition style_document (items : list json) : json :=
  JObj [("layer", JObj [("styles", JObj [("style", JArr items)])])].

Definition named_style (name : string) : json := JObj [("name", JStr name)].

(** The layer document [doc] reaches the list [items] under
    ["layer"]["styles"]["style"], whatever else its objects hold. *)
Definition styles_listed (doc : list (string * json)) (items : list json) : Prop :=
  exists layer styles,
    assoc "layer" doc = Some (JObj layer) /\
    assoc "styles" layer = Some (JObj styles) /\
    assoc "style" styles = Some (JArr items).

(** The entry [item] of a style list is an object shown as [name]: the text
    under its ["name"], or the sentinel when it has no ["name"]. *)
Definition shown_as (item : json) (name : string) : Prop :=
  exists fields, item = JObj fields /\ getattr (assoc "name" fields) (JStr NA) = JStr name.

(** A layer document as GeoServer sends it, with keys the script does not
    read, whose style list holds [items]. *)
Definition layer_document (items : list json) : list (string * json) :=
  [("layer",
    JObj [("name", JStr "L1"); ("type", JStr "VECTOR");
          ("defaultStyle", JObj [("name", JStr "s1"); ("href", JStr "s1.json")]);
          ("styles", JObj [("@class", JStr "linked-hash-set"); ("style", JArr items)]);
          ("opaque", JStr "false")])].

(** The lengths of the strings of a column. *)
Definition text_lengths (cells : list pyval) : list nat :=
  omap (fun v => String.length <$> pyval_to_option v) cells.

(** A cell has the dark blue font exactly when it holds the sentinel. *)
Definition marked {A : Type} `{CellValue A} (c : cell A) : Prop :=
  cell_font c = dark_blue_font <-> is_na (value c) = true.

Definition row_marked (r : group_row) : Prop :=
  marked (c_workspace r) /\ marked (c_store r) /\ marked (c_group r) /\
  marked (c_group_title r) /\ marked (c_type r) /\ marked (c_layer r) /\
  marked (c_child_title r) /\ marked (c_style r).

(** A row of a group's sheet shows the layer [m] as a member of [g]. *)
Definition shows_layer (g : group) (m : layer) (row : group_row) : Prop :=
  value (c_workspace row) = lyr_workspace_name m /\
  value (c_store row) = lyr_store m /\
  value (c_group row) = grp_group_name g /\
  value (c_group_title row) = grp_title g /\
  value (c_type row) = "Layer" /\
  value (c_layer row) = lyr_name m /\
  value (c_child_title row) = lyr_title m /\
  value (c_style row) = lyr_default_style m.

(** The link of a cell goes to data row [i] of the sheet and column named by
    [prefix], or the cell has no link when [i] is [None]. *)
Definition links_to {A : Type} (prefix : string) (i : option nat) (c : cell A) : Prop :=
  hyperlink c = (fun i => prefix +:+ decimal (i + 2)) <$> i.

(* ================================================================== *)
(** * Small catalogs *)

(** A layer that two groups list: the first group fetched, the second one,
    and the layer. *)
Definition first_owner : raw_group :=
  {| g_workspace := None; g_name := Some "g1"; g_bounds := None; g_title := None;
     g_mode := None; g_layers := [MemberName "L1"] |}.

Definition second_owner : raw_group :=
  {| g_workspace := None; g_name := Some "g2"; g_bounds := None; g_title := None;
     g_mode := None; g_layers := [MemberName "L1"] |}.

Definition shared_layer : raw_layer :=
  {| l_name := "L1";
     l_resource := {| r_store := None; r_latlon_bbox := None;
                      r_title := None; r_abstract := None |};
     l_default_style_response := Response 404 None;
     l_styles_response := Response 404 None |}.

(** A group whose title is there and holds None, as gsconfig gives it for a
    group without a title element. *)
Definition untitled_group : raw_group :=
  {| g_workspace := Some (Some "ws1"); g_name := Some "g1"; g_bounds := None;
     g_title := Some PyNone; g_mode := None; g_layers := [MemberName "L1"] |}.

(** A group without members, and two layers: one as normalised with both
    style lookups failing, one named by the empty string. *)
Definition memberless_group : raw_group :=
  {| g_workspace := Some (Some "ws1"); g_name := Some "g0"; g_bounds := None;
     g_title := Some (PyStr "Empty"); g_mode := None; g_layers := [] |}.

Definition plain_layer : layer := layer_record ∅ shared_layer (PyStr NA) NA.

Definition nameless_layer : layer :=
  {| lyr_workspace_name := "ws1"; lyr_store := "st1"; lyr_group_name := NA;
     lyr_name := EmptyString; lyr_title := PyStr NA; lyr_default_style := PyStr NA;
     lyr_available_styles := NA; lyr_crs := NA; lyr_bbox := PyStr NA;
     lyr_abstract := PyStr NA |}.

(** A group that lists the group ["g3"] under the name ["cgs:g3"]. *)
Definition nesting_group : group :=
  {| grp_workspace_name := "cgs"; grp_group_name := "g2"; grp_title := PyStr "T2";
     grp_crs := NA; grp_bounds := NA; grp_mode := PyStr NA; grp_layers := "cgs:g3" |}.

Definition nested_group : group :=
  {| grp_workspace_name := "cgs"; grp_group_name := "g3"; grp_title := PyStr "T3";
     grp_crs := NA; grp_bounds := NA; grp_mode := PyStr NA;
     grp_layers := EmptyString |}.

(** A catalog of one workspace, one store and one layer, no group. *)
Definition lone_workspace : workspace := {| w_name := "ws1"; w_href := PyStr NA |}.

Definition lone_store : store :=
  {| s_workspace_name := "ws1"; s_store_name := "st1"; s_store_url := "url" |}.

Definition lone_layer : layer :=
  {| lyr_workspace_name := "ws1"; lyr_store := "st1"; lyr_group_name := NA;
     lyr_name := "L1"; lyr_title := PyStr "Layer one"; lyr_default_style := PyStr "s1";
     lyr_available_styles := "s1"; lyr_crs := "EPSG:4326";
     lyr_bbox := PyStr "EPSG:4326"; lyr_abstract := PyStr NA |}.

Definition lone_workbook : workbook :=
  main_sheets [lone_workspace] [lone_store] [] [lone_layer] [PyStr "s1"].

(** No cell of the row has the dark blue font yet. *)
Definition plain_row (r : group_row) : Prop :=
  cell_font (c_workspace r) <> dark_blue_font /\
  cell_font (c_store r) <> dark_blue_font /\
  cell_font (c_group r) <> dark_blue_font /\
  cell_font (c_group_title r) <> dark_blue_font /\
  cell_font (c_type r) <> dark_blue_font /\
  cell_font (c_layer r) <> dark_blue_font /\
  cell_font (c_child_title r) <> dark_blue_font /\
  cell_font (c_style r) <> dark_blue_font.

(** A catalog whose two layers answer their style lookups, one with a
    document and one with a 404. *)
Definition small_catalog : catalog :=
  {| cat_workspaces := [{| ws_name := "ws1"; ws_href := None |}];
     cat_stores := [{| st_workspace := "ws1"; st_name := "st1" |}];
     cat_layergroups := [first_owner; memberless_group];
     cat_layers :=
       [shared_layer;
        {| l_name := "L2";
           l_resource := {| r_store := None; r_latlon_bbox := None;
                            r_title := None; r_abstract := None |};
           l_default_style_response :=
             Response 200 (Some (JObj [("layer",
               JObj [("defaultStyle", JObj [("name", JStr "s1")])])]));
           l_styles_response :=
             Response 200 (Some (style_document [named_style "s1"])) |}];
     cat_styles_response := Response 404 None |}.



(** A group whose one member is named ["a, b"], and a layer of that name. *)
Definition comma_group : raw_group :=
  {| g_workspace := Some (Some "ws1"); g_name := Some "g1"; g_bounds := None;
     g_title := None; g_mode := None; g_layers := [MemberName "a, b"] |}.

Definition comma_layer : layer :=
  {| lyr_workspace_name := "ws1"; lyr_store := "st1"; lyr_group_name := "g1";
     lyr_name := "a, b"; lyr_title := PyStr "Both"; lyr_default_style := PyStr NA;
     lyr_available_styles := NA; lyr_crs := NA; lyr_bbox := PyStr NA;
     lyr_abstract := PyStr NA |}.

(* ================================================================== *)
(** * Orders *)

(** The three facts about [<] that make a stable sort by key well defined. *)
Class StrictWeakOrder {K : Type} (lt : K -> K -> bool) := {
  lt_irrefl : forall a, lt a a = false;
  lt_asym : forall a b, lt a b = true -> lt b a = false;
  le_trans : forall a b c, lt b a = false -> lt c b = false -> lt c a = false
}.

(* ================================================================== *)
(** * Facts about the order of strings and tuples *)

(** String concatenation computes on a known prefix in the proofs below. *)
#[local] Arguments String.append !_ _ / : simpl nomatch.

Lemma ascii_compare_refl (a : ascii) : Ascii.compare a a = Eq.
Proof. unfold Ascii.compare. apply N.compare_refl. Qed.

Lemma ascii_compare_lt_trans (a b c : ascii) :
  Ascii.compare a b = Lt -> Ascii.compare b c = Lt -> Ascii.compare a c = Lt.
Proof.
  unfold Ascii.compare. rewrite !N.compare_lt_iff. apply N.lt_trans.
Qed.

Lemma string_compare_refl (s : string) : String.compare s s = Eq.
Proof.
  induction s as [|c s IH]; simpl; [done|].
  by rewrite ascii_compare_refl.
Qed.

Lemma string_compare_lt_trans (s1 s2 s3 : string) :
  String.compare s1 s2 = Lt -> String.compare s2 s3 = Lt -> String.compare s1 s3 = Lt.
Proof.
  revert s2 s3.
  induction s1 as [|a s1 IH]; intros [|b s2] [|c s3]; simpl; try done.
  destruct (Ascii.compare a b) eqn:Hab; try done;
    destruct (Ascii.compare b c) eqn:Hbc; try done; intros H12 H23.
  - apply Ascii.compare_eq_iff in Hab, Hbc. subst.
    rewrite ascii_compare_refl. eauto.
  - apply Ascii.compare_eq_iff in Hab. subst. by rewrite Hbc.
  - apply Ascii.compare_eq_iff in Hbc. subst. by rewrite Hab.
  - by rewrite (ascii_compare_lt_trans a b c).
Qed.

Lemma str_lt_total (a b : string) : a <> b -> str_lt a b = false -> str_lt b a = true.
Proof.
  unfold str_lt, String.ltb. intros Hne. rewrite (String.compare_antisym b a).
  destruct (String.compare a b) eqn:Hc; simpl; try done.
  by apply String.compare_eq_iff in Hc.
Qed.

Lemma str_lt_trans (a b c : string) :
  str_lt a b = true -> str_lt b c = true -> str_lt a c = true.
Proof.
  unfold str_lt, String.ltb.
  destruct (String.compare a b) eqn:Hab; try done.
  destruct (String.compare b c) eqn:Hbc; try done.
  by rewrite (string_compare_lt_trans a b c).
Qed.

Lemma str_lt_order : StrictWeakOrder str_lt.
Proof.
  split.
  - intros a. unfold str_lt, String.ltb. by rewrite string_compare_refl.
  - intros a b. unfold str_lt, String.ltb. rewrite (String.compare_antisym b a).
    by destruct (String.compare a b).
  - intros a b c Hab Hbc.
    destruct (decide (a = b)) as [->|Hne1]; [done|].
    destruct (decide (b = c)) as [->|Hne2]; [done|].
    pose proof (str_lt_total _ _ (not_eq_sym Hne1) Hab) as H1.
    pose proof (str_lt_total _ _ (not_eq_sym Hne2) Hbc) as H2.
    pose proof (str_lt_trans _ _ _ H1 H2) as H3.
    unfold str_lt, String.ltb in *. rewrite (String.compare_antisym c a).
    by destruct (String.compare a c).
Qed.

#[global] Existing Instance str_lt_order.

Lemma tuple_lt_irrefl (a : list string) : tuple_lt a a = false.
Proof.
  induction a as [|x a IH]; simpl; [done|]. by rewrite String.eqb_refl.
Qed.

Lemma tuple_lt_asym (a b : list string) : tuple_lt a b = true -> tuple_lt b a = false.
Proof.
  revert b. induction a as [|x a IH]; intros [|y b]; simpl; try done.
  rewrite (String.eqb_sym y x).
  destruct (String.eqb x y); [apply IH | apply lt_asym].
Qed.

Lemma tuple_le_trans (a b c : list string) :
  tuple_lt b a = false -> tuple_lt c b = false -> tuple_lt c a = false.
Proof.
  revert b c. induction a as [|x a IH]; intros [|y b] [|z c]; simpl; try done.
  destruct (String.eqb_spec y x) as [->|Hyx].
  - destruct (String.eqb_spec z x) as [->|Hzx]; [apply IH | done].
  - destruct (String.eqb_spec z y) as [->|Hzy].
    + destruct (String.eqb_spec y x); done.
    + intros Hyx' Hzy'.
      assert (str_lt x y = true) as H1 by (apply str_lt_total; done).
      assert (str_lt y z = true) as H2 by (apply str_lt_total; done).
      pose proof (str_lt_trans _ _ _ H1 H2) as H3.
      destruct (String.eqb_spec z x) as [->|Hzx].
      * by rewrite lt_irrefl in H3.
      * by apply lt_asym.
Qed.

Lemma tuple_lt_order : StrictWeakOrder tuple_lt.
Proof.
  split; [apply tuple_lt_irrefl | apply tuple_lt_asym | apply tuple_le_trans].
Qed.

#[global] Existing Instance tuple_lt_order.

(* ================================================================== *)
(** * Facts about [sorted] *)

Section SortedFacts.
Context {A K : Type} (lt : K -> K -> bool) (key : A -> K) `{!StrictWeakOrder lt}.

Lemma insert_by_perm (x : A) (l : list A) :
  Permutation (insert_by lt key x l) (x :: l).
Proof.
  induction l as [|y l IH]; simpl; [done|].
  destruct (lt (key y) (key x)); [|done].
  rewrite IH. apply perm_swap.
Qed.

Lemma sorted_perm (l : list A) : Permutation (sorted lt key l) l.
Proof.
  induction l as [|x l IH]; simpl; [done|].
  fold (sorted lt key l). rewrite insert_by_perm. by rewrite IH.
Qed.






End SortedFacts.

(* ================================================================== *)
(** * The order of the rows *)


(* ================================================================== *)
(** * The CRS code *)

Lemma strip_prefix_spec (p s rest : string) :
  strip_prefix p s = Some rest <-> s = p +:+ rest.
Proof.
  revert s. induction p as [|a p IH]; intros s; simpl.
  - split; congruence.
  - destruct s as [|b s]; [split; discriminate|].
    destruct (Ascii.eqb_spec a b) as [->|Hne].
    + rewrite IH. split; [by intros -> | by intros [= ->]].
    + split; [discriminate | by intros [= ->]].
Qed.

Lemma take_digits_all (s : string) : all_digits (take_digits s).
Proof.
  unfold all_digits. induction s as [|c s IH]; simpl; [constructor|].
  destruct (is_digit c) eqn:Hc; simpl; [by constructor | constructor].
Qed.

Lemma take_digits_rest (s : string) :
  exists post, s = take_digits s +:+ post /\ starts_with_digit post = false.
Proof.
  induction s as [|c s (post & Hs & Hpost)]; simpl.
  - by exists EmptyString.
  - destruct (is_digit c) eqn:Hc; simpl.
    + exists post. by rewrite <- Hs.
    + exists (String c s). simpl. by rewrite Hc.
Qed.

Lemma match_here_some (s m : string) :
  match_here s = Some m ->
  exists digits post,
    s = "EPSG:" +:+ (digits +:+ post) /\ digits <> EmptyString /\ all_digits digits /\
    starts_with_digit post = false /\ m = "EPSG:" +:+ digits.
Proof.
  unfold match_here. destruct (strip_prefix "EPSG:" s) as [rest|] eqn:Hp; [|done].
  apply strip_prefix_spec in Hp. intros Hm.
  destruct (take_digits_rest rest) as (post & Hrest & Hpost).
  pose proof (take_digits_all rest) as Hall.
  destruct (take_digits rest) as [|d ds] eqn:Hd; [done|].
  exists (String d ds), post. injection Hm as <-.
  split; [congruence|]. by repeat split.
Qed.

Lemma match_here_none (s : string) (d : ascii) (rest : string) :
  match_here s = None -> s = "EPSG:" +:+ String d rest -> is_digit d = false.
Proof.
  unfold match_here. intros Hm Hs. apply strip_prefix_spec in Hs. rewrite Hs in Hm.
  simpl in Hm. by destruct (is_digit d).
Qed.

Lemma re_search_none (s : string) :
  re_search s = None ->
  forall pre d rest, s = pre +:+ ("EPSG:" +:+ String d rest) -> is_digit d = false.
Proof.
  induction s as [|c s IH]; intros Hs pre d rest Heq.
  - by destruct pre.
  - simpl in Hs. destruct (match_here (String c s)) eqn:Hm; [done|].
    destruct pre as [|c' pre]; simpl in Heq.
    + exact (match_here_none _ d rest Hm Heq).
    + injection Heq as _ Heq. exact (IH Hs pre d rest Heq).
Qed.

Lemma re_search_some (s m : string) :
  re_search s = Some m ->
  exists pre digits post,
    s = pre +:+ ("EPSG:" +:+ (digits +:+ post)) /\ digits <> EmptyString /\
    all_digits digits /\ starts_with_digit post = false /\ m = "EPSG:" +:+ digits /\
    forall pre' d rest, s = pre' +:+ ("EPSG:" +:+ String d rest) -> is_digit d = true ->
                        String.length pre <= String.length pre'.
Proof.
  revert m. induction s as [|c s IH]; intros m Hs; [done|].
  simpl in Hs. destruct (match_here (String c s)) as [m'|] eqn:Hm.
  - injection Hs as ->.
    destruct (match_here_some _ _ Hm) as (digits & post & H1 & H2 & H3 & H4 & H5).
    exists EmptyString, digits, post. repeat split; try done.
    intros. simpl. lia.
  - destruct (IH _ Hs) as (pre & digits & post & H1 & H2 & H3 & H4 & H5 & H6).
    exists (String c pre), digits, post. repeat split; try done.
    + simpl. f_equal. exact H1.
    + intros [|c' pre'] d rest Heq Hd; simpl in Heq.
      * by rewrite (match_here_none _ d rest Hm Heq) in Hd.
      * injection Heq as _ Heq. simpl. apply le_n_S. exact (H6 pre' d rest Heq Hd).
Qed.

(** C7. CRS extraction is a function of the text alone.  When the text holds
    a token [EPSG:] followed by digits, the result is the first such token
    (none starts further left) with all the digits that follow it; when it
    holds none, the result is the sentinel ["N/A"].  On the two texts of the
    specification it gives ["EPSG:4326"] and ["N/A"]. *)
Theorem extract_epsg_code_first_token :
  (forall text : string,
     (exists pre digits post,
        text = pre +:+ ("EPSG:" +:+ (digits +:+ post)) /\
        digits <> EmptyString /\ all_digits digits /\ starts_with_digit post = false /\
        (forall pre' d rest,
           text = pre' +:+ ("EPSG:" +:+ String d rest) -> is_digit d = true ->
           String.length pre <= String.length pre') /\
        extract_epsg_code (PyStr text) = "EPSG:" +:+ digits)
     \/
     ((forall pre d rest,
         text = pre +:+ ("EPSG:" +:+ String d rest) -> is_digit d = false) /\
      extract_epsg_code (PyStr text) = NA))
  /\ extract_epsg_code (PyStr "BBOX minx=.. EPSG:4326") = "EPSG:4326"
  /\ extract_epsg_code (PyStr "no crs here") = NA.
Proof.
  split; [|done].
  intros text. unfold extract_epsg_code. simpl.
  destruct (re_search text) as [m|] eqn:Hs.
  - left. destruct (re_search_some _ _ Hs) as (pre & digits & post & H1 & H2 & H3 & H4 & H5 & H6).
    exists pre, digits, post. by repeat split.
  - right. split; [|done]. by apply re_search_none.
Qed.

(* ================================================================== *)
(** * Style lookups that fail *)














(* ================================================================== *)
(** * What the passes over a sheet leave alone *)

Lemma value_na_color {A : Type} `{CellValue A} (c : cell A) : value (na_color c) = value c.
Proof. unfold na_color. by destruct (is_na (value c)). Qed.

Lemma hyperlink_na_color {A : Type} `{CellValue A} (c : cell A) :
  hyperlink (na_color c) = hyperlink c.
Proof. unfold na_color. by destruct (is_na (value c)). Qed.

Lemma style_na_color {A : Type} `{CellValue A} (c : cell A) : style (na_color c) = style c.
Proof. unfold na_color. by destruct (is_na (value c)). Qed.

Lemma value_link_from (lookup : gmap string string) (prefix : string) (c : cell string) :
  value (link_from lookup prefix c) = value c.
Proof. unfold link_from. by destruct (lookup !! value c). Qed.

(** A cell that is not empty keeps its content when it is linked. *)
Lemma value_link_from_filled (lookup : gmap pyval string) (prefix : string) (c : cell pyval) :
  value c <> PyNone \/ lookup !! PyNone = None ->
  value (link_from lookup prefix c) = value c.
Proof.
  unfold link_from. intros Hc.
  destruct (lookup !! value c) as [address|] eqn:Hl; [|done].
  simpl. destruct (value c); [|done]. by destruct Hc as [?|Hc]; [|rewrite Hc in Hl].
Qed.

Lemma link_group_names_values (keys : list string) (rs : list layer_group_row) :
  layer_group_row_values <$> link_group_names keys rs = layer_group_row_values <$> rs.
Proof.
  apply list_eq. intros i. unfold link_group_names.
  rewrite !list_lookup_fmap, list_lookup_imap.
  destruct (rs !! i) as [r|]; simpl; [|done]. by destruct (keys !! i).
Qed.

Lemma workspaces_sheet_values (workspaces : list workspace) :
  workspace_row_values <$> rows (workspaces_sheet workspaces) = workspace_values <$> workspaces.
Proof.
  simpl. rewrite <- !list_fmap_compose. apply list_fmap_ext. intros i w _.
  unfold workspace_row_values, workspace_values. simpl. by rewrite !value_na_color.
Qed.

Lemma layer_groups_sheet_values (groups : list group) :
  layer_group_row_values <$> rows (layer_groups_sheet groups) = group_values <$> groups.
Proof.
  simpl. rewrite link_group_names_values, <- !list_fmap_compose.
  apply list_fmap_ext. intros i g _.
  unfold layer_group_row_values, group_values. simpl. by rewrite !value_na_color.
Qed.

Lemma layers_sheet_values (layers : list layer) :
  layer_row_values <$> rows (layers_sheet layers) = layer_values <$> layers.
Proof.
  simpl. rewrite <- !list_fmap_compose. apply list_fmap_ext. intros i l _.
  unfold layer_row_values, layer_values. simpl. by rewrite !value_na_color.
Qed.

(* ================================================================== *)
(** * Attributes that are missing *)

Lemma fetch_default_style_absent (doc : list (string * json)) :
  lacks_default_style_name doc ->
  fetch_default_style (Response 200 (Some (JObj doc))) = Ok (PyStr NA).
Proof.
  intros [Hl|(layer & Hl & [Hd|(ds & Hd & Hn)])]; simpl; rewrite Hl; simpl;
    try done; rewrite Hd; simpl; try done. by rewrite Hn.
Qed.

Lemma fetch_available_styles_absent (doc : list (string * json)) :
  lacks_style_list doc ->
  fetch_available_styles (Response 200 (Some (JObj doc))) = Ok NA.
Proof.
  intros [Hl|(layer & Hl & [Hs|(styles & Hs & Hn)])]; simpl; rewrite Hl; simpl;
    try done; rewrite Hs; simpl; try done. by rewrite Hn.
Qed.

(** C6 (as amended).  For every attribute that the normaliser reads with a
    fallback, an attribute that is absent from the raw record gives the
    sentinel ["N/A"] in the normalised record: the href of a workspace; the
    workspace (absent, null or nameless), name, title, mode and bounds of a
    group, the CRS following the bounds; the store (null), the store's name,
    the bounding box with its CRS, the title and the abstract of a layer;
    the name of a style and the default style and style list of a layer
    document.  The rows written to the Workspaces, Layer Groups and Layers
    sheets hold exactly the values of the normalised records, a cell per
    attribute. *)
Theorem absent_attribute_is_sentinel :
  (forall ws, ws_href ws = None -> w_href (workspace_details ws) = PyStr NA)
  /\
  (forall g,
     (g_workspace g = None -> grp_workspace_name (group_details g) = NA) /\
     (g_workspace g = Some None -> grp_workspace_name (group_details g) = NA) /\
     (g_name g = None -> grp_group_name (group_details g) = NA) /\
     (g_title g = None -> grp_title (group_details g) = PyStr NA) /\
     (g_mode g = None -> grp_mode (group_details g) = PyStr NA) /\
     (g_bounds g = None ->
        grp_bounds (group_details g) = NA /\ grp_crs (group_details g) = NA))
  /\
  (forall group_to_layers l default_style available_styles,
     let record := layer_record group_to_layers l default_style available_styles in
     (r_store (l_resource l) = None ->
        lyr_workspace_name record = NA /\ lyr_store record = NA) /\
     (forall st, r_store (l_resource l) = Some st -> sr_name st = None ->
        lyr_store record = NA) /\
     (r_latlon_bbox (l_resource l) = None ->
        lyr_bbox record = PyStr NA /\ lyr_crs record = NA) /\
     (r_title (l_resource l) = None -> lyr_title record = PyStr NA) /\
     (r_abstract (l_resource l) = None -> lyr_abstract record = PyStr NA))
  /\
  (forall fields, assoc "name" fields = None -> style_name (JObj fields) = Ok (PyStr NA))
  /\
  (forall doc, lacks_default_style_name doc ->
     fetch_default_style (Response 200 (Some (JObj doc))) = Ok (PyStr NA))
  /\
  (forall doc, lacks_style_list doc ->
     fetch_available_styles (Response 200 (Some (JObj doc))) = Ok NA)
  /\
  (forall workspaces groups layers,
     workspace_row_values <$> rows (workspaces_sheet workspaces)
       = workspace_values <$> workspaces /\
     layer_group_row_values <$> rows (layer_groups_sheet groups)
       = group_values <$> groups /\
     layer_row_values <$> rows (layers_sheet layers) = layer_values <$> layers).
Proof.
  split; [by intros ws Hws; unfold workspace_details; simpl; rewrite Hws|].
  split.
  { intros g. unfold group_details. simpl.
    split_and!; intros Hg; unfold group_parent_name; by rewrite Hg. }
  split.
  { intros g2l l d a record. unfold record, layer_record. simpl.
    split_and!; try (intros Hl; by rewrite Hl).
    intros st Hl Hst. by rewrite Hl, Hst. }
  split; [by intros fields Hf; unfold style_name; simpl; rewrite Hf|].
  split; [apply fetch_default_style_absent|].
  split; [apply fetch_available_styles_absent|].
  intros workspaces groups layers.
  auto using workspaces_sheet_values, layer_groups_sheet_values, layers_sheet_values.
Qed.

(** The claim C6 as it is written also covers an attribute that is present
    and null.  A group whose title holds None keeps None as its title, and
    its row in the Layer Groups sheet has an empty cell there. *)
Lemma null_title_is_kept :
  g_title untitled_group = Some PyNone /\
  grp_title (group_details untitled_group) <> PyStr NA /\
  layer_group_row_values <$> rows (layer_groups_sheet [group_details untitled_group])
  = [[PyStr "g1"; PyNone; PyStr "N/A"; PyStr "N/A"; PyStr "N/A"; PyStr "L1"]].
Proof. split_and!; [reflexivity | discriminate | reflexivity]. Qed.

(* ================================================================== *)
(** * The reverse index from layer name to group *)

Lemma associate_members (d : gmap string string) (parent : string) (ms : list member)
    (name : string) :
  foldl (fun d m => <[member_key m := parent]> d) d ms !! name
  = if bool_decide (name ∈ member_key <$> ms) then Some parent else d !! name.
Proof.
  revert d. induction ms as [|m ms IH]; intros d; simpl; [done|].
  rewrite IH.
  destruct (decide (name ∈ member_key <$> ms)) as [Hin|Hin].
  - rewrite !bool_decide_eq_true_2; [done | by right | done].
  - rewrite (bool_decide_eq_false_2 _ Hin).
    destruct (decide (member_key m = name)) as [<-|Hne].
    + rewrite lookup_insert_eq. by rewrite bool_decide_eq_true_2 by left.
    + rewrite lookup_insert_ne by done.
      rewrite bool_decide_eq_false_2; [done|].
      intros [->|?]%elem_of_cons; done.
Qed.

Lemma associate_listed (d : gmap string string) (g : raw_group) (name : string) :
  name ∈ member_keys g -> associate d g !! name = Some (group_parent_name g).
Proof.
  intros Hin. unfold associate. rewrite associate_members.
  by rewrite bool_decide_eq_true_2.
Qed.

Lemma associate_unlisted (d : gmap string string) (g : raw_group) (name : string) :
  name ∉ member_keys g -> associate d g !! name = d !! name.
Proof.
  intros Hin. unfold associate. rewrite associate_members.
  by rewrite bool_decide_eq_false_2.
Qed.

Lemma associate_all_unlisted (d : gmap string string) (gs : list raw_group) (name : string) :
  (forall g, g ∈ gs -> name ∉ member_keys g) ->
  foldl associate d gs !! name = d !! name.
Proof.
  revert d. induction gs as [|g gs IH]; intros d Hgs; simpl; [done|].
  rewrite IH; [apply associate_unlisted, Hgs; by left|].
  intros g' Hg'. apply Hgs. by right.
Qed.

(** C1 (as amended).  A layer whose name is listed by some group is owned
    by the last group of the catalog that lists it: its owning group name
    is that group's name, in the index and in the layer's record.  A layer
    whose name no group lists has the sentinel ["N/A"] as its owning group
    name. *)
Theorem owning_group_is_last_lister
    (before : list raw_group) (g : raw_group) (after : list raw_group)
    (l : raw_layer) (default_style : pyval) (available_styles : string) :
  let cat := before ++ g :: after in
  let group_to_layers := (fetch_group_details cat).2 in
  let record := layer_record group_to_layers l default_style available_styles in
  (l_name l ∈ member_keys g ->
   (forall g', g' ∈ after -> l_name l ∉ member_keys g') ->
   lyr_group_name record = grp_group_name (group_details g))
  /\
  ((forall g', g' ∈ cat -> l_name l ∉ member_keys g') ->
   lyr_group_name record = NA).
Proof.
  intros cat group_to_layers record.
  unfold record, group_to_layers, layer_record, parent_group. simpl.
  unfold reverse_index, cat. split.
  - intros Hin Hafter. rewrite foldl_app. simpl.
    rewrite associate_all_unlisted by done.
    by rewrite associate_listed.
  - intros Hnone. by rewrite associate_all_unlisted, lookup_empty.
Qed.

Lemma owning_group_is_last_lister_witness :
  lyr_group_name
    (layer_record (fetch_group_details ([first_owner] ++ second_owner :: [])).2
       shared_layer (PyStr NA) NA)
  = grp_group_name (group_details second_owner).
Proof.
  apply (owning_group_is_last_lister [first_owner] second_owner [] shared_layer).
  - by left.
  - intros g' Hin. by apply elem_of_nil in Hin.
Defined.

(** The claim C1 as it is written gives a listed layer the name of any
    group that lists it.  Two groups list ["L1"]; its owning group is the
    second, not the first. *)
Lemma first_lister_is_not_owner :
  first_owner ∈ [first_owner; second_owner] /\
  l_name shared_layer ∈ member_keys first_owner /\
  lyr_group_name
    (layer_record (fetch_group_details [first_owner; second_owner]).2
       shared_layer (PyStr NA) NA)
  <> grp_group_name (group_details first_owner).
Proof.
  split_and!; [by left | by left |].
  vm_compute. discriminate.
Qed.

(* ================================================================== *)
(** * Dictionaries built by comprehension *)

Section Dict.
Context {K V : Type} `{Countable K}.

Lemma dict_of_snoc (items : list (K * V)) (k : K) (v : V) :
  dict_of (items ++ [(k, v)]) = <[k := v]> (dict_of items).
Proof. unfold dict_of. by rewrite foldl_snoc. Qed.

(** A key that is bound is bound to the value of its last item. *)
Lemma dict_of_bound (items : list (K * V)) (k : K) (v : V) :
  dict_of items !! k = Some v ->
  exists i, items !! i = Some (k, v) /\ last_position (items.*1) k i.
Proof.
  induction items as [|[k0 v0] items IH] using rev_ind; [done|].
  rewrite dict_of_snoc, fmap_app. simpl.
  destruct (decide (k0 = k)) as [->|Hne].
  - rewrite lookup_insert_eq. intros [= ->].
    exists (length items). split; [by apply list_lookup_middle|].
    split.
    + apply list_lookup_middle. by rewrite length_fmap.
    + intros j Hj Hlook. apply lookup_lt_Some in Hlook.
      rewrite length_app, length_fmap in Hlook. simpl in Hlook. lia.
  - rewrite lookup_insert_ne by done. intros Hl.
    destruct (IH Hl) as (i & Hi & Hk & Hlast).
    exists i. split; [by apply lookup_app_l_Some|].
    split; [by apply lookup_app_l_Some|].
    intros j Hj Hlook.
    destruct (decide (j < length (items.*1))) as [Hlt|Hge].
    + rewrite lookup_app_l in Hlook by done. by eapply Hlast.
    + rewrite lookup_app_r in Hlook by lia.
      by destruct (j - length (items.*1)) as [|n]; simplify_eq/=.
Qed.

(** A key that is not bound is the key of no item. *)
Lemma dict_of_unbound (items : list (K * V)) (k : K) :
  dict_of items !! k = None -> k ∉ items.*1.
Proof.
  induction items as [|[k0 v0] items IH] using rev_ind; [intros _; apply not_elem_of_nil|].
  rewrite dict_of_snoc, fmap_app. simpl.
  destruct (decide (k0 = k)) as [->|Hne].
  - by rewrite lookup_insert_eq.
  - rewrite lookup_insert_ne by done. intros Hl.
    rewrite elem_of_app, list_elem_of_singleton. intros [Hin| ->]; [|done].
    by apply IH.
Qed.

Lemma last_position_elem_of (keys : list K) (k : K) (i : nat) :
  last_position keys k i -> k ∈ keys.
Proof. intros [Hi _]. by eapply list_elem_of_lookup_2. Qed.

Lemma last_position_unique (keys : list K) (k : K) (i j : nat) :
  last_position keys k i -> last_position keys k j -> i = j.
Proof.
  intros [Hi Hli] [Hj Hlj].
  destruct (Nat.lt_trichotomy i j) as [Hlt|[Heq|Hgt]]; [|done|].
  - by destruct (Hli j Hlt).
  - by destruct (Hlj i Hgt).
Qed.
End Dict.

Section AddressLookup.
Context {K : Type} `{Countable K}.

Lemma address_items_keys (prefix : string) (keys : list K) :
  (imap (fun idx key => (key, prefix +:+ decimal (idx + 2))) keys).*1 = keys.
Proof.
  apply list_eq. intros i. rewrite list_lookup_fmap, list_lookup_imap.
  by destruct (keys !! i).
Qed.

Lemma address_lookup_bound (prefix : string) (keys : list K) (k : K) (address : string) :
  address_lookup prefix keys !! k = Some address ->
  exists i, last_position keys k i /\ address = prefix +:+ decimal (i + 2).
Proof.
  unfold address_lookup. intros Hl.
  apply dict_of_bound in Hl as (i & Hi & Hlast).
  rewrite address_items_keys in Hlast. exists i. split; [done|].
  rewrite list_lookup_imap in Hi. destruct (keys !! i); simpl in Hi; congruence.
Qed.

Lemma address_lookup_unbound (prefix : string) (keys : list K) (k : K) :
  address_lookup prefix keys !! k = None -> k ∉ keys.
Proof.
  unfold address_lookup. intros Hl. apply dict_of_unbound in Hl.
  by rewrite address_items_keys in Hl.
Qed.

Lemma address_lookup_not_key (prefix : string) (keys : list K) (k : K) :
  k ∉ keys -> address_lookup prefix keys !! k = None.
Proof.
  intros Hk. destruct (address_lookup prefix keys !! k) as [address|] eqn:Hl; [|done].
  apply address_lookup_bound in Hl as (i & Hi & _).
  by apply last_position_elem_of in Hi.
Qed.

(** The rule of a linked column, for a cell that keeps its content. *)
Lemma link_from_cross_referenced `{CellValue K}
    (address_prefix link_prefix : string) (keys : list K) (c : cell K) :
  cross_referenced keys (link_prefix +:+ address_prefix) c
    (link_from (address_lookup address_prefix keys) link_prefix c).
Proof.
  unfold cross_referenced, link_from.
  destruct (address_lookup address_prefix keys !! value c) as [address|] eqn:Hl.
  - apply address_lookup_bound in Hl as (i & Hi & ->). split.
    + intros _. exists i. split; [done|]. simpl. split; [|done].
      f_equal. clear. induction link_prefix as [|a p IH]; simpl; [done|]. by rewrite IH.
    + intros Hk. by apply last_position_elem_of in Hi.
  - split; [|done]. intros Hk. by apply address_lookup_unbound in Hl.
Qed.
End AddressLookup.

(* ================================================================== *)
(** * Member names and the member string *)

Lemma split_cons_other (c : ascii) (rest : string) :
  (c = ","%char -> forall r, rest <> String " "%char r) ->
  split (String c rest)
  = match split rest with
    | piece :: pieces => String c piece :: pieces
    | [] => [String c EmptyString]
    end.
Proof.
  intros Hc. destruct (Ascii.eqb_spec c ","%char) as [->|Hne].
  - destruct rest as [|c' r]; [reflexivity|].
    destruct (Ascii.eqb_spec c' " "%char) as [->|Hne']; [by destruct (Hc eq_refl r)|].
    by destruct c' as [[] [] [] [] [] [] [] []].
  - by destruct c as [[] [] [] [] [] [] [] []].
Qed.

Lemma contains_separator_cons (c : ascii) (rest : string) :
  contains_separator (String c rest) = false ->
  (c = ","%char -> forall r, rest <> String " "%char r) /\ contains_separator rest = false.
Proof.
  intros Hs. destruct (Ascii.eqb_spec c ","%char) as [->|Hne].
  - destruct rest as [|c' r]; [split; [by intros _ r | done]|].
    destruct (Ascii.eqb_spec c' " "%char) as [->|Hne']; [done|].
    split; [intros _ r' [= ? _]; done|].
    by destruct c' as [[] [] [] [] [] [] [] []].
  - split; [done|]. by destruct c as [[] [] [] [] [] [] [] []].
Qed.

Lemma split_whole (s : string) : contains_separator s = false -> split s = [s].
Proof.
  induction s as [|c s IH]; [done|]. intros Hs.
  apply contains_separator_cons in Hs as [Hc Hs].
  by rewrite split_cons_other, IH.
Qed.

Lemma split_first (s t : string) :
  contains_separator s = false -> split (s +:+ (", " +:+ t)) = s :: split t.
Proof.
  induction s as [|c s IH]; [done|]. intros Hs.
  apply contains_separator_cons in Hs as [Hc Hs].
  change (String c s +:+ (", " +:+ t)) with (String c (s +:+ (", " +:+ t))).
  rewrite split_cons_other; [by rewrite IH|].
  intros -> r. destruct s as [|c' s]; simpl; [done|].
  intros [= -> _]. by destruct (Hc eq_refl s).
Qed.

(** Splitting the joined names gives the names back, when there is at
    least one and none holds the separator. *)
Lemma split_join (names : list string) :
  names <> [] -> Forall (fun name => contains_separator name = false) names ->
  split (join names) = names.
Proof.
  intros Hne Hnames. induction Hnames as [|name names Hname Hnames IH]; [done|].
  destruct names as [|name' names]; [by apply split_whole|].
  unfold join in *.
  change (String.concat ", " (name :: name' :: names))
    with (name +:+ (", " +:+ String.concat ", " (name' :: names))).
  rewrite split_first by done. f_equal. by apply IH.
Qed.

(* ================================================================== *)
(** * The rows of a group's sheet *)

Lemma value_link_to (target : string) (c : cell string) : value (link_to target c) = value c.
Proof. done. Qed.

(** The three passes after [populate_child_title] never change what a cell
    of the first seven columns holds. *)
Lemma annotated_row_keeps (wb : workbook) (r : group_row) :
  let r' := group_row_color (add_layer_group_hyperlinks_row wb (link_columns_row wb r)) in
  value (c_workspace r') = value (c_workspace r) /\
  value (c_store r') = value (c_store r) /\
  value (c_group r') = value (c_group r) /\
  value (c_group_title r') = value (c_group_title r) /\
  value (c_type r') = value (c_type r) /\
  value (c_layer r') = value (c_layer r) /\
  value (c_child_title r') = value (c_child_title r).
Proof.
  intros r'. unfold r', add_layer_group_hyperlinks_row. simpl.
  destruct (String.eqb (value (c_type r)) "Layer Group"); simpl;
    [destruct (group_lookup wb !! remove_cgs (value (link_from (layer_lookup wb) "#" (c_layer r))))|];
    simpl; rewrite !value_na_color, ?value_link_to, ?value_link_from; done.
Qed.

(** The eighth column keeps its content unless the cell is empty and the
    Styles sheet has an empty name cell. *)
Lemma annotated_row_keeps_style (wb : workbook) (r : group_row) :
  value (c_style r) <> PyNone \/ PyNone ∉ style_keys wb ->
  value (c_style (group_row_color
                    (add_layer_group_hyperlinks_row wb (link_columns_row wb r))))
  = value (c_style r).
Proof.
  intros Hr. unfold add_layer_group_hyperlinks_row. simpl.
  assert (value (link_from (style_lookup wb) "#" (c_style r)) = value (c_style r)) as Hs.
  { apply value_link_from_filled. destruct Hr as [?|Hr]; [by left|right].
    by apply address_lookup_not_key. }
  destruct (String.eqb (value (c_type r)) "Layer Group"); simpl;
    [destruct (group_lookup wb !! remove_cgs (value (link_from (layer_lookup wb) "#" (c_layer r))))|];
    simpl; by rewrite value_na_color.
Qed.

Lemma populate_child_title_row_keeps (wb : workbook) (r : group_row) :
  let r' := populate_child_title_row wb r in
  c_workspace r' = c_workspace r /\ c_store r' = c_store r /\ c_group r' = c_group r /\
  c_group_title r' = c_group_title r /\ c_type r' = c_type r /\ c_layer r' = c_layer r /\
  c_style r' = c_style r.
Proof.
  intros r'. unfold r', populate_child_title_row.
  destruct (String.eqb (value (c_type r)) "Layer Group"); [|done].
  by destruct (layer_group_map wb !! remove_cgs (value (c_layer r))).
Qed.

Lemma create_group_worksheet_rows (wb : workbook) (layers : list layer) (g : group) :
  rows (create_group_worksheet wb layers g)
  = (fun member_name =>
       group_row_color
         (add_layer_group_hyperlinks_row wb
            (link_columns_row wb
               (populate_child_title_row wb (member_row layers g member_name)))))
    <$> split (grp_layers g).
Proof.
  unfold create_group_worksheet, annotate, add_layer_group_hyperlinks,
    link_columns_with_sheets, populate_child_title, add_header_hyperlinks, member_rows.
  simpl. by rewrite <- !list_fmap_compose.
Qed.

Lemma member_row_known (layers : list layer) (g : group) (member_name : string) :
  (exists l, l ∈ layers /\ lyr_name l = member_name) ->
  value (c_type (member_row layers g member_name)) = "Layer" /\
  value (c_layer (member_row layers g member_name)) = member_name.
Proof.
  intros (l & Hin & Hname). unfold member_row.
  destruct (find _ layers) as [m|] eqn:Hfind; simpl.
  - apply find_some in Hfind as [_ Hm]. by apply String.eqb_eq in Hm.
  - apply list_elem_of_In in Hin. eapply find_none in Hfind; [|exact Hin].
    simpl in Hfind. apply String.eqb_neq in Hfind. done.
Qed.

Lemma member_row_unknown (layers : list layer) (g : group) (member_name : string) :
  ~ (exists l, l ∈ layers /\ lyr_name l = member_name) ->
  member_row layers g member_name
  = {| c_workspace := new_cell (grp_workspace_name g);
       c_store := new_cell NA;
       c_group := new_cell (grp_group_name g);
       c_group_title := new_cell (grp_title g);
       c_type := new_cell "Layer Group";
       c_layer := new_cell member_name;
       c_child_title := new_cell (PyStr NA);
       c_style := new_cell (PyStr NA) |}.
Proof.
  intros Hno. unfold member_row.
  destruct (find _ layers) as [m|] eqn:Hfind; [|done].
  apply find_some in Hfind as [Hin Hm]. destruct Hno. exists m.
  split; [by apply list_elem_of_In | by apply String.eqb_eq].
Qed.

Lemma known_layer_dec (layers : list layer) (member_name : string) :
  Decision (exists l, l ∈ layers /\ lyr_name l = member_name).
Proof.
  destruct (find (fun l => String.eqb (lyr_name l) member_name) layers) as [m|] eqn:Hfind.
  - left. apply find_some in Hfind as [Hin Hm]. exists m.
    split; [by apply list_elem_of_In | by apply String.eqb_eq].
  - right. intros (l & Hin & Hname). apply list_elem_of_In in Hin.
    eapply find_none in Hfind; [|exact Hin]. simpl in Hfind.
    by apply String.eqb_neq in Hfind.
Qed.

Lemma group_rows_classified (wb : workbook) (layers : list layer) (g : group) :
  Forall2 (fun member_name row =>
             value (c_layer row) = member_name /\
             (value (c_type row) = "Layer" <->
                exists l, l ∈ layers /\ lyr_name l = member_name) /\
             (value (c_type row) = "Layer Group" <->
                ~ exists l, l ∈ layers /\ lyr_name l = member_name))
          (split (grp_layers g)) (rows (create_group_worksheet wb layers g)).
Proof.
  rewrite create_group_worksheet_rows. apply Forall2_fmap_r, Forall_Forall2_diag.
  apply Forall_forall. intros n _. unfold compose.
  destruct (annotated_row_keeps wb (populate_child_title_row wb (member_row layers g n)))
    as (_ & _ & _ & _ & -> & -> & _).
  destruct (populate_child_title_row_keeps wb (member_row layers g n))
    as (_ & _ & _ & _ & -> & -> & _).
  destruct (known_layer_dec layers n) as [Hknown|Hunknown].
  - destruct (member_row_known layers g n Hknown) as [-> ->].
    split; [done|]. split; split; done.
  - rewrite (member_row_unknown layers g n Hunknown). simpl.
    split; [done|]. split; split; done.
Qed.

(** C2 (as amended).  In the sheet of a layer group there is one row per
    name read back from the group's member string, in order: the pieces of
    the member names joined by [", "] and split at [", "] again.  They are
    the raw member names of the group whenever it has at least one and none
    of them holds [", "].  The row is typed "Layer" exactly when its name is
    the name of a known layer, whatever groups there are, and "Layer Group"
    exactly when it is not, whether or not a group of that name exists. *)
Theorem member_type_by_layer_match (wb : workbook) (layers : list layer) (g : group) :
  Forall2 (fun member_name row =>
             value (c_layer row) = member_name /\
             (value (c_type row) = "Layer" <->
                exists l, l ∈ layers /\ lyr_name l = member_name) /\
             (value (c_type row) = "Layer Group" <->
                ~ exists l, l ∈ layers /\ lyr_name l = member_name))
          (split (grp_layers g)) (rows (create_group_worksheet wb layers g))
  /\
  (forall raw,
     g = group_details raw -> g_layers raw <> [] ->
     Forall (fun m => contains_separator (member_label m) = false) (g_layers raw) ->
     split (grp_layers g) = member_label <$> g_layers raw).
Proof.
  split; [apply group_rows_classified|].
  intros raw -> Hne Hnames. simpl. apply split_join.
  - by destruct (g_layers raw).
  - by apply Forall_fmap.
Qed.

(** The claim C2 as it is written types the row of every raw member name
    by that name.  The one member of the group is named ["a, b"], which is
    the name of a known layer; the sheet has no row for it but a row for
    ["a"] and a row for ["b"], both typed "Layer Group". *)
Lemma member_holding_separator_is_split :
  let g := group_details comma_group in
  let sheet_rows :=
    rows (create_group_worksheet (main_sheets [] [] [g] [comma_layer] [])
            [comma_layer] g) in
  member_label <$> g_layers comma_group = ["a, b"] /\
  (exists l, l ∈ [comma_layer] /\ lyr_name l = "a, b") /\
  (fun row => (value (c_layer row), value (c_type row))) <$> sheet_rows
  = [("a", "Layer Group"); ("b", "Layer Group")] /\
  ~ Forall2 (fun member_name row =>
               value (c_type row) = "Layer" <->
                 exists l, l ∈ [comma_layer] /\ lyr_name l = member_name)
            (member_label <$> g_layers comma_group) sheet_rows.
Proof.
  intros g sheet_rows. split_and!.
  - reflexivity.
  - exists comma_layer. split; [by left | reflexivity].
  - vm_compute. reflexivity.
  - intros Hrows. apply Forall2_length in Hrows. vm_compute in Hrows. discriminate.
Qed.

(** C10 (as amended).  A group whose member string is empty has a sheet
    with exactly one data row, and the member name of that row is the empty
    string.  The row is typed "Layer Group" when no known layer is named by
    the empty string, and "Layer" when one is. *)
Theorem empty_member_string_gives_one_row
    (wb : workbook) (layers : list layer) (g : group) :
  grp_layers g = EmptyString ->
  exists row, rows (create_group_worksheet wb layers g) = [row] /\
              value (c_layer row) = EmptyString /\
              (value (c_type row) = "Layer Group" <->
                 forall l, l ∈ layers -> lyr_name l <> EmptyString) /\
              (value (c_type row) = "Layer" <->
                 exists l, l ∈ layers /\ lyr_name l = EmptyString).
Proof.
  intros Hempty.
  pose proof (group_rows_classified wb layers g) as Hrows.
  rewrite Hempty in Hrows. change (split EmptyString) with [EmptyString] in Hrows.
  apply Forall2_cons_inv_l in Hrows as (row & rest & (Hname & Hlayer & Htype) & Hrest & ->).
  apply Forall2_nil_inv_l in Hrest as ->.
  exists row. split; [done|]. split; [done|]. split; [|done].
  rewrite Htype. split.
  - intros Hno l Hin Hl. apply Hno. by exists l.
  - intros Hno (l & Hin & Hl). by apply (Hno l).
Qed.

Lemma empty_member_string_gives_one_row_witness :
  exists row,
    rows (create_group_worksheet (main_sheets [] [] [] [plain_layer] [])
            [plain_layer] (group_details memberless_group)) = [row] /\
    value (c_layer row) = EmptyString /\
    (value (c_type row) = "Layer Group" <->
       forall l, l ∈ [plain_layer] -> lyr_name l <> EmptyString) /\
    (value (c_type row) = "Layer" <->
       exists l, l ∈ [plain_layer] /\ lyr_name l = EmptyString).
Proof.
  apply empty_member_string_gives_one_row. reflexivity.
Defined.

(** The claim C10 as it is written types the row "Layer Group".  With a
    layer named by the empty string in the catalog, the one row of a group
    without members is typed "Layer". *)
Lemma empty_member_matches_nameless_layer :
  grp_layers (group_details memberless_group) = EmptyString /\
  exists row,
    rows (create_group_worksheet (main_sheets [] [] [] [nameless_layer] [])
            [nameless_layer] (group_details memberless_group)) = [row] /\
    value (c_type row) <> "Layer Group".
Proof.
  split; [reflexivity|]. eexists. split; [reflexivity|]. vm_compute. discriminate.
Qed.

(* ================================================================== *)
(** * Rows typed "Layer Group" *)

Lemma layer_groups_sheet_pairs (groups : list group) :
  (fun r => (value (lgr_name r), value (lgr_title r))) <$> rows (layer_groups_sheet groups)
  = (fun g => (grp_group_name g, grp_title g)) <$> groups.
Proof.
  apply list_eq. intros i. unfold layer_groups_sheet, link_group_names. simpl.
  rewrite !list_lookup_fmap, list_lookup_imap, !list_lookup_fmap.
  destruct (groups !! i) as [g|]; simpl; [|done].
  destruct (dict_keys (grp_group_name <$> groups) !! i); simpl;
    by rewrite !value_na_color.
Qed.

Lemma layer_group_map_bound
    (workspaces : list workspace) (stores : list store) (groups : list group)
    (layers : list layer) (names : list pyval) (k : string) (title : pyval) :
  layer_group_map (main_sheets workspaces stores groups layers names) !! k = Some title ->
  exists i g', groups !! i = Some g' /\
               last_position (grp_group_name <$> groups) k i /\ title = grp_title g'.
Proof.
  unfold layer_group_map. simpl LayerGroups. rewrite layer_groups_sheet_pairs.
  intros Hl. apply dict_of_bound in Hl as (i & Hi & Hlast).
  rewrite <- list_fmap_compose in Hlast.
  rewrite list_lookup_fmap in Hi.
  destruct (groups !! i) as [g'|] eqn:Hg; simpl in Hi; [|done].
  exists i, g'. split; [done|]. split; [exact Hlast | congruence].
Qed.

Lemma layer_group_map_unbound
    (workspaces : list workspace) (stores : list store) (groups : list group)
    (layers : list layer) (names : list pyval) (k : string) :
  layer_group_map (main_sheets workspaces stores groups layers names) !! k = None ->
  k ∉ grp_group_name <$> groups.
Proof.
  unfold layer_group_map. simpl LayerGroups. rewrite layer_groups_sheet_pairs.
  intros Hl. apply dict_of_unbound in Hl. by rewrite <- list_fmap_compose in Hl.
Qed.

(** No name cell of the Styles sheet is empty: a style without a name shows
    the target of its link. *)
Lemma style_keys_filled
    (workspaces : list workspace) (stores : list store) (groups : list group)
    (layers : list layer) (names : list pyval) :
  PyNone ∉ style_keys (main_sheets workspaces stores groups layers names).
Proof.
  unfold style_keys. simpl. intros Hin.
  apply list_elem_of_fmap in Hin as (r & Hr & Hin).
  apply list_elem_of_fmap in Hin as (r0 & -> & Hin).
  apply list_elem_of_fmap in Hin as (name & -> & _).
  simpl in Hr. rewrite value_na_color in Hr. simpl in Hr. by destruct name.
Qed.

(** C3 (as amended).  A row typed "Layer Group" holds the workspace of the
    group the sheet belongs to, store ["N/A"], style ["N/A"], the member
    name, and as member title the title of the group whose name is the
    member name with every ["cgs:"] taken out (the last such group in the
    Layer Groups sheet) when there is one, ["N/A"] when there is none. *)
Theorem layer_group_row_content
    (workspaces : list workspace) (stores : list store) (groups : list group)
    (layers : list layer) (names : list pyval) (g : group) :
  Forall2 (fun member_name row =>
             value (c_type row) = "Layer Group" ->
             layer_group_member remove_cgs groups g member_name row)
          (split (grp_layers g))
          (rows (create_group_worksheet
                   (main_sheets workspaces stores groups layers names) layers g)).
Proof.
  set (wb := main_sheets workspaces stores groups layers names).
  rewrite create_group_worksheet_rows. apply Forall2_fmap_r, Forall_Forall2_diag.
  apply Forall_forall. intros n _. unfold compose.
  set (populated := populate_child_title_row wb (member_row layers g n)).
  destruct (annotated_row_keeps wb populated) as (Hw & Hs & _ & _ & Ht & Hl & Hc).
  unfold layer_group_member. rewrite Hw, Hs, Ht, Hl, Hc.
  rewrite annotated_row_keeps_style by (right; apply style_keys_filled).
  clear Hw Hs Ht Hl Hc. unfold populated.
  destruct (known_layer_dec layers n) as [Hknown|Hunknown].
  { destruct (populate_child_title_row_keeps wb (member_row layers g n))
      as (_ & _ & _ & _ & -> & _).
    destruct (member_row_known layers g n Hknown) as [-> _]. discriminate. }
  rewrite (member_row_unknown layers g n Hunknown).
  unfold populate_child_title_row. simpl. intros _.
  destruct (layer_group_map wb !! remove_cgs n) as [title|] eqn:Hmap; simpl.
  - split_and!; try done. left.
    apply layer_group_map_bound in Hmap as (i & g' & Hg' & Hlast & ->). eauto.
  - split_and!; try done. right. split; [|done].
    by eapply layer_group_map_unbound.
Qed.

(** The claim C3 as it is written looks for a group whose name equals the
    member name.  The member ["cgs:g3"] of group ["g2"] is typed
    "Layer Group"; no group is called ["cgs:g3"], and yet the row shows the
    title of ["g3"] and not ["N/A"]. *)
Lemma prefixed_member_takes_title :
  ~ Forall2 (fun member_name row =>
               value (c_type row) = "Layer Group" ->
               layer_group_member (fun name => name) [nesting_group; nested_group]
                 nesting_group member_name row)
            (split (grp_layers nesting_group))
            (rows (create_group_worksheet
                     (main_sheets [] [] [nesting_group; nested_group] [] [])
                     [] nesting_group)).
Proof.
  intros Hrows.
  apply Forall2_cons_inv_l in Hrows as (row & rest & Hrow & _ & Heq).
  assert (value (c_type row) = "Layer Group" /\ value (c_child_title row) = PyStr "T3")
    as [Htype Htitle].
  { vm_compute in Heq. injection Heq as <- _. by vm_compute. }
  destruct (Hrow Htype) as (_ & _ & _ & _ & _ & [(i & g' & _ & [Hi _] & _)|[_ Hna]]).
  - by destruct i as [|[|i]].
  - rewrite Htitle in Hna. discriminate.
Qed.

(* ================================================================== *)
(** * The cross-reference pass *)

Lemma annotate_rows (wb : workbook) (ws : sheet group_row) :
  rows (annotate wb ws)
  = (fun r => add_layer_group_hyperlinks_row wb (link_columns_row wb r)) <$> rows ws.
Proof.
  unfold annotate, add_layer_group_hyperlinks, link_columns_with_sheets. simpl.
  by rewrite <- list_fmap_compose.
Qed.

Lemma annotate_row_values (wb : workbook) (r : group_row) :
  value (c_style r) <> PyNone \/ PyNone ∉ style_keys wb ->
  row_values (add_layer_group_hyperlinks_row wb (link_columns_row wb r)) = row_values r.
Proof.
  intros Hr.
  assert (value (link_from (style_lookup wb) "#" (c_style r)) = value (c_style r)) as Hs.
  { apply value_link_from_filled. destruct Hr as [?|Hr]; [by left|right].
    by apply address_lookup_not_key. }
  unfold add_layer_group_hyperlinks_row, row_values. simpl.
  destruct (String.eqb (value (c_type r)) "Layer Group"); simpl;
    [destruct (group_lookup wb !! remove_cgs (value (link_from (layer_lookup wb) "#" (c_layer r))))|];
    simpl; rewrite ?value_link_to, !value_link_from, Hs; done.
Qed.

(** C9. The cross-reference pass over a group's sheet, run on the finished
    five sheets, leaves the value of every cell of the sheet as it was,
    header and data rows alike: it sets hyperlinks and styles only.  The five
    sheets are read and not written. *)
Theorem annotation_keeps_values
    (workspaces : list workspace) (stores : list store) (groups : list group)
    (layers : list layer) (names : list pyval) (ws : sheet group_row) :
  sheet_values (annotate (main_sheets workspaces stores groups layers names) ws)
  = sheet_values ws.
Proof.
  unfold sheet_values. rewrite annotate_rows. f_equal.
  rewrite <- list_fmap_compose. apply list_fmap_ext. intros i r _. unfold compose.
  apply annotate_row_values. right. apply style_keys_filled.
Qed.

Lemma annotate_row_annotated (wb : workbook) (r : group_row) :
  annotated_row wb r (add_layer_group_hyperlinks_row wb (link_columns_row wb r)).
Proof.
  pose proof (link_from_cross_referenced "Workspaces!A" "#" (workspace_names wb)
                (c_workspace r)) as Hw.
  pose proof (link_from_cross_referenced "Stores!B" "#" (store_names wb) (c_store r)) as Hs.
  pose proof (link_from_cross_referenced "A" "#'Layer Groups'!" (group_names wb)
                (c_group r)) as Hg.
  pose proof (link_from_cross_referenced "Layers!D" "#" (layer_names wb) (c_layer r)) as Hl.
  pose proof (link_from_cross_referenced "Styles!A" "#" (style_keys wb) (c_style r)) as Hy.
  unfold annotated_row, add_layer_group_hyperlinks_row. simpl.
  rewrite value_link_from.
  destruct (String.eqb_spec (value (c_type r)) "Layer Group") as [Htype|Htype].
  - destruct (group_lookup wb !! remove_cgs (value (c_layer r))) as [address|] eqn:Hlook;
      simpl; split_and!; try done.
    + intros _ _. apply address_lookup_bound in Hlook as (i & Hi & ->). by exists i.
    + intros [?|Hno]; [done|].
      apply address_lookup_bound in Hlook as (i & Hi & _).
      by apply last_position_elem_of in Hi.
    + intros _ Hin. by apply address_lookup_unbound in Hlook.
  - simpl. split_and!; try done.
Qed.

(** C4 (as amended).  In the sheet of a layer group, every data cell of the
    Workspace, Store, Group, Layer and Style columns whose value is a name in
    the key column of the Workspaces, Stores, Layer Groups, Layers and Styles
    sheet respectively gets a link to the last row of that sheet holding the
    name; the member cell of a row typed "Layer Group" gets a link to the
    row of the group named by it once ["cgs:"] is taken out.  Every such
    row exists in the sheet it is in.  A cell of these columns whose value
    is no such name, and every cell of the three other columns, is left as
    it was; the header is left as it was. *)
Theorem group_sheet_cross_references (wb : workbook) (ws : sheet group_row) :
  Forall2 (annotated_row wb) (rows ws) (rows (annotate wb ws)) /\
  header (annotate wb ws) = header ws.
Proof.
  split; [|done].
  rewrite annotate_rows. apply Forall2_fmap_r, Forall_Forall2_diag.
  apply Forall_forall. intros r _. apply annotate_row_annotated.
Qed.

(** The claim C4 as it is written links every cell of every sheet that
    holds a known name.  The Layers sheet of a catalog with workspace
    ["ws1"] shows ["ws1"] in the row of its layer, and the cell has no
    link. *)
Lemma layers_sheet_cell_is_not_linked :
  exists r, rows (Layers lone_workbook) = [r] /\
            value (lay_workspace r) ∈ workspace_names lone_workbook /\
            hyperlink (lay_workspace r) = None.
Proof.
  eexists. split; [reflexivity|]. split; [|reflexivity].
  vm_compute. by left.
Qed.

(* ================================================================== *)
(** * Further properties: texts *)

Lemma split_nonempty (s : string) : split s <> [].
Proof.
  induction s as [|c s IH]; [done|].
  destruct (Ascii.eqb_spec c ","%char) as [->|Hne].
  - destruct s as [|c' r]; [done|].
    destruct (Ascii.eqb_spec c' " "%char) as [->|Hne']; [done|].
    rewrite split_cons_other by (intros _ r' [= ? _]; done).
    by destruct (split (String c' r)).
  - rewrite split_cons_other by done. by destruct (split s).
Qed.

Lemma join_cons_char (c : ascii) (piece : string) (pieces : list string) :
  join (String c piece :: pieces) = String c (join (piece :: pieces)).
Proof. by destruct pieces. Qed.

Lemma join_split_length (n : nat) (s : string) :
  String.length s < n -> join (split s) = s.
Proof.
  revert s. induction n as [|n IH]; intros s Hn; [lia|].
  destruct s as [|c rest]; [done|]. simpl in Hn.
  assert (join (split rest) = rest) as Hrest by (apply IH; lia).
  assert ((c = ","%char -> forall r, rest <> String " "%char r) ->
          join (split (String c rest)) = String c rest) as Hother.
  { intros Hc. rewrite split_cons_other by done.
    pose proof (split_nonempty rest) as Hne.
    destruct (split rest) as [|piece pieces]; [done|].
    by rewrite join_cons_char, Hrest. }
  destruct (Ascii.eqb_spec c ","%char) as [->|Hne]; [|by apply Hother].
  destruct rest as [|c' r]; [by apply Hother|].
  destruct (Ascii.eqb_spec c' " "%char) as [->|Hne'];
    [|apply Hother; intros _ r' [= ? _]; done].
  change (split (String "," (String " " r))) with (EmptyString :: split r).
  pose proof (split_nonempty r) as Hne. simpl in Hn.
  assert (join (split r) = r) as Hr by (apply IH; lia).
  unfold join in *. destruct (split r) as [|piece pieces]; [done|].
  change (String.concat ", " (EmptyString :: piece :: pieces))
    with (", " +:+ String.concat ", " (piece :: pieces)).
  by rewrite Hr.
Qed.

(** X1. Joining the pieces of a split gives the text back, whatever the
    text: the member string of a group can always be rebuilt from the names
    its sheet shows. *)
Theorem join_split (s : string) : join (split s) = s.
Proof. apply (join_split_length (S (String.length s))). lia. Qed.

Lemma take_digits_fixed (s : string) : all_digits s -> take_digits s = s.
Proof.
  unfold all_digits. induction s as [|c s IH]; simpl; [done|].
  intros Hs. apply Forall_cons in Hs as [-> Hs]. by rewrite IH.
Qed.

Lemma re_search_unfold (s : string) :
  re_search s = match match_here s with
                | Some m => Some m
                | None => match s with
                          | String _ rest => re_search rest
                          | EmptyString => None
                          end
                end.
Proof. by destruct s. Qed.

(** X2. Extracting the code from an extracted code changes nothing: the
    result of [extract_epsg_code] is either the sentinel or a text that is
    itself read as the same code. *)
Theorem extract_epsg_code_idempotent (bbox : pyval) :
  extract_epsg_code (PyStr (extract_epsg_code bbox)) = extract_epsg_code bbox.
Proof.
  unfold extract_epsg_code at 2 3.
  destruct (re_search (py_str bbox)) as [m|] eqn:Hs; [|done].
  apply re_search_some in Hs as (pre & digits & post & _ & Hne & Hall & _ & -> & _).
  unfold extract_epsg_code. cbn [py_str]. rewrite re_search_unfold.
  unfold match_here.
  assert (strip_prefix "EPSG:" ("EPSG:" +:+ digits) = Some digits) as ->
    by by apply strip_prefix_spec.
  rewrite take_digits_fixed by done. by destruct digits.
Qed.

Lemma remove_cgs_cons (c : ascii) (rest : string) :
  (c = "c"%char -> forall r, rest <> "gs:" +:+ r) ->
  remove_cgs (String c rest) = String c (remove_cgs rest) /\
  contains_cgs (String c rest) = contains_cgs rest.
Proof.
  intros Hc. destruct (Ascii.eqb_spec c "c"%char) as [->|Hne];
    [|by destruct c as [[] [] [] [] [] [] [] []]].
  destruct rest as [|c1 r1]; [done|].
  destruct (Ascii.eqb_spec c1 "g"%char) as [->|Hne1];
    [|by destruct c1 as [[] [] [] [] [] [] [] []]].
  destruct r1 as [|c2 r2]; [done|].
  destruct (Ascii.eqb_spec c2 "s"%char) as [->|Hne2];
    [|by destruct c2 as [[] [] [] [] [] [] [] []]].
  destruct r2 as [|c3 r3]; [done|].
  destruct (Ascii.eqb_spec c3 ":"%char) as [->|Hne3];
    [|by destruct c3 as [[] [] [] [] [] [] [] []]].
  by destruct (Hc eq_refl r3).
Qed.

Lemma remove_cgs_length_bound (n : nat) (s : string) :
  String.length s < n -> String.length (remove_cgs s) <= String.length s.
Proof.
  revert s. induction n as [|n IH]; intros s Hn; [lia|].
  destruct s as [|c rest]; [done|]. simpl in Hn.
  destruct (strip_prefix "gs:" rest) as [r|] eqn:Hp.
  - apply strip_prefix_spec in Hp as ->.
    destruct (Ascii.eqb_spec c "c"%char) as [->|Hne].
    + change (remove_cgs (String "c" ("gs:" +:+ r))) with (remove_cgs r).
      simpl in *. specialize (IH r). lia.
    + destruct (remove_cgs_cons c ("gs:" +:+ r)) as [-> _]; [done|].
      simpl in *. specialize (IH (String "g" (String "s" (String ":" r)))).
      simpl in IH. lia.
  - destruct (remove_cgs_cons c rest) as [-> _].
    + intros _ r Hr. by apply strip_prefix_spec in Hr; rewrite Hr in Hp.
    + simpl. specialize (IH rest). lia.
Qed.

(** X3. Taking ["cgs:"] out never makes a name longer, and a name that does
    not hold ["cgs:"] is looked up as it is. *)
Theorem remove_cgs_shortens :
  (forall s, String.length (remove_cgs s) <= String.length s) /\
  (forall s, contains_cgs s = false -> remove_cgs s = s).
Proof.
  split.
  - intros s. apply (remove_cgs_length_bound (S (String.length s))). lia.
  - induction s as [|c rest IH]; [done|]. intros Hs.
    destruct (strip_prefix "gs:" rest) as [r|] eqn:Hp.
    + apply strip_prefix_spec in Hp as ->.
      destruct (Ascii.eqb_spec c "c"%char) as [->|Hne]; [done|].
      destruct (remove_cgs_cons c ("gs:" +:+ r)) as [-> Hc]; [done|].
      rewrite Hc in Hs. by rewrite IH.
    + destruct (remove_cgs_cons c rest) as [-> Hc].
      * intros _ r Hr. by apply strip_prefix_spec in Hr; rewrite Hr in Hp.
      * rewrite Hc in Hs. by rewrite IH.
Qed.

Lemma string_length_append (s t : string) :
  String.length (s +:+ t) = String.length s + String.length t.
Proof. induction s as [|c s IH]; simpl; [done|]. by rewrite IH. Qed.

Lemma substring_prefix (m : nat) (s : string) :
  String.length (substring 0 m s) = Nat.min m (String.length s) /\
  exists rest, s = substring 0 m s +:+ rest.
Proof.
  revert s. induction m as [|m IH]; intros s.
  - destruct s; simpl; (split; [done|by eexists]).
  - destruct s as [|c s]; simpl; [split; [done|by exists EmptyString]|].
    destruct (IH s) as [-> [rest Hrest]]. split; [done|].
    exists rest. by rewrite <- Hrest.
Qed.

(** X4. The title of a group's sheet is never longer than 31 characters; it
    is ["Group "] followed by a prefix of the group's name, the whole name
    when that has at most 25 characters. *)
Theorem group_sheet_title_length (group_name : string) :
  String.length (group_sheet_title group_name) <= 31 /\
  (exists shown rest, group_sheet_title group_name = "Group " +:+ shown /\
                      group_name = shown +:+ rest /\
                      (String.length group_name <= 25 -> rest = EmptyString)).
Proof.
  unfold group_sheet_title, truncate25.
  destruct (substring_prefix 25 group_name) as [Hlen [rest Hrest]].
  split; [simpl; lia|].
  exists (substring 0 25 group_name), rest. split; [done|]. split; [done|].
  intros Hshort. apply (f_equal String.length) in Hrest.
  rewrite string_length_append, Hlen in Hrest.
  destruct rest as [|c r]; [done|].
  change (String.length (String c r)) with (S (String.length r)) in Hrest. lia.
Qed.

(* ================================================================== *)
(** * Further properties: the style documents *)

Lemma style_names_of_shown (items : list json) (names : list string) :
  Forall2 shown_as (filter (fun item => is_object item = true) items) names ->
  style_names_of items = JStr <$> names.
Proof.
  revert names. induction items as [|item items IH]; intros names.
  - rewrite filter_nil. by intros ->%Forall2_nil_inv_l.
  - rewrite filter_cons. destruct item as [|s|l|fields]; simpl.
    1-3: intros Hrest; by apply IH.
    intros (name & names' & (fields' & [= <-] & Hname) & Hrest & ->)%Forall2_cons_inv_l.
    rewrite fmap_cons. unfold style_names_of. cbn [omap list_omap].
    fold (style_names_of items). by rewrite Hname, (IH names').
Qed.

Lemma json_strings_texts (names : list string) : json_strings (JStr <$> names) = Ok names.
Proof.
  induction names as [|n names IH]; [done|].
  rewrite fmap_cons. cbn [json_strings]. by rewrite IH.
Qed.

Lemma json_strings_not_text (items : list json) (j : json) :
  j ∈ items -> is_text j = false -> json_strings items = Raise TypeError.
Proof.
  induction 1 as [j items|j j' items Hin IH]; intros Hj; simpl.
  - by destruct j.
  - destruct j'; try done. by rewrite IH.
Qed.

Lemma style_names_of_elem (items : list json) (fields : list (string * json)) (j : json) :
  JObj fields ∈ items -> assoc "name" fields = Some j -> j ∈ style_names_of items.
Proof.
  intros Hin Hname. unfold style_names_of. apply list_elem_of_omap.
  exists (JObj fields). split; [done|]. by rewrite Hname.
Qed.

Lemma fetch_available_styles_listed (doc : list (string * json)) (items : list json) :
  styles_listed doc items ->
  fetch_available_styles (Response 200 (Some (JObj doc)))
  = match style_names_of items with
    | [] => Ok NA
    | available_styles => let* names := json_strings available_styles in Ok (join names)
    end.
Proof.
  intros (layer & styles & Hlayer & Hstyles & Hstyle).
  cbn [fetch_available_styles Nat.eqb response_json bind json_get].
  rewrite Hlayer. cbn [getattr bind json_get]. rewrite Hstyles. cbn [getattr bind].
  rewrite Hstyle. reflexivity.
Qed.

(** X5. For a layer document, whatever other keys it holds, whose style list
    is reached and in which every object is shown by a text (the text under
    its ["name"], the sentinel when it has none), the available styles are
    these texts in the order of the list, joined by [", "], entries that
    are no objects being passed over; the sentinel when no object is
    listed. *)
Theorem available_styles_are_joined_names
    (doc : list (string * json)) (items : list json) (names : list string) :
  styles_listed doc items ->
  Forall2 shown_as (filter (fun item => is_object item = true) items) names ->
  fetch_available_styles (Response 200 (Some (JObj doc)))
  = Ok (match names with [] => NA | _ => join names end).
Proof.
  intros Hdoc Hnames.
  rewrite (fetch_available_styles_listed doc items Hdoc),
    (style_names_of_shown items names Hnames).
  destruct names as [|n names]; [done|].
  rewrite fmap_cons, <- fmap_cons. by rewrite json_strings_texts.
Qed.

Lemma available_styles_are_joined_names_witness :
  fetch_available_styles
    (Response 200 (Some (JObj (layer_document
       [JObj [("name", JStr "s1"); ("href", JStr "s1.json")];
        JStr "stray";
        JObj [("href", JStr "s2.json")];
        named_style "s3"]))))
  = Ok "s1, N/A, s3".
Proof.
  refine (available_styles_are_joined_names _ _ ["s1"; "N/A"; "s3"] _ _).
  - eexists _, _. split_and!; reflexivity.
  - repeat constructor; eexists; (split; [reflexivity | reflexivity]).
Defined.

(** X6. In a layer document, whatever other keys it holds, one style entry
    whose name is there but is not a text (null, a list, an object) makes
    the lookup of the available styles raise a TypeError instead of giving
    the sentinel. *)
Theorem available_styles_need_text_names
    (doc : list (string * json)) (items : list json)
    (fields : list (string * json)) (j : json) :
  styles_listed doc items ->
  JObj fields ∈ items -> assoc "name" fields = Some j -> is_text j = false ->
  fetch_available_styles (Response 200 (Some (JObj doc))) = Raise TypeError.
Proof.
  intros Hdoc Hin Hname Hj.
  pose proof (style_names_of_elem items fields j Hin Hname) as Hnames.
  rewrite (fetch_available_styles_listed doc items Hdoc).
  destruct (style_names_of items) as [|first others] eqn:Hs;
    [by apply elem_of_nil in Hnames|].
  by rewrite (json_strings_not_text _ j Hnames Hj).
Qed.

Lemma available_styles_need_text_names_witness :
  fetch_available_styles
    (Response 200 (Some (JObj (layer_document
       [named_style "s1"; JObj [("href", JStr "s2.json"); ("name", JNull)]]))))
  = Raise TypeError.
Proof.
  refine (available_styles_need_text_names _ _
            [("href", JStr "s2.json"); ("name", JNull)] JNull _ _ _ _).
  - eexists _, _. split_and!; reflexivity.
  - right. by left.
  - reflexivity.
  - reflexivity.
Defined.

(** X7. What a 200 answer gives as default style: a body that is not JSON
    raises a JSONDecodeError; a body, a ["layer"] or a ["defaultStyle"] that
    is not an object raises an AttributeError; otherwise the text under
    ["name"] is the default style, and a null there is kept as None. *)
Theorem default_style_of_document :
  fetch_default_style (Response 200 None) = Raise JSONDecodeError /\
  (forall j, is_object j = false ->
     fetch_default_style (Response 200 (Some j)) = Raise AttributeError) /\
  (forall doc j, assoc "layer" doc = Some j -> is_object j = false ->
     fetch_default_style (Response 200 (Some (JObj doc))) = Raise AttributeError) /\
  (forall doc layer j,
     assoc "layer" doc = Some (JObj layer) ->
     assoc "defaultStyle" layer = Some j -> is_object j = false ->
     fetch_default_style (Response 200 (Some (JObj doc))) = Raise AttributeError) /\
  (forall doc layer default_style,
     assoc "layer" doc = Some (JObj layer) ->
     assoc "defaultStyle" layer = Some (JObj default_style) ->
     (forall name, assoc "name" default_style = Some (JStr name) ->
        fetch_default_style (Response 200 (Some (JObj doc))) = Ok (PyStr name)) /\
     (assoc "name" default_style = Some JNull ->
        fetch_default_style (Response 200 (Some (JObj doc))) = Ok PyNone)).
Proof.
  split_and!.
  - done.
  - by intros [].
  - intros doc j Hl Hj. simpl. rewrite Hl. by destruct j.
  - intros doc layer j Hl Hd Hj. simpl. rewrite Hl. simpl. rewrite Hd. by destruct j.
  - intros doc layer ds Hl Hd.
    split; [intros name Hn|intros Hn]; simpl; rewrite Hl; simpl; rewrite Hd; simpl;
      by rewrite Hn.
Qed.

(** X8. The styles listing: an answer that is not a 200 gives the empty
    list, as does a 200 without ["styles"] or without ["style"] under it;
    a ["styles"] that is not an object (GeoServer sends the empty text when
    there are no styles) raises an AttributeError; otherwise the value
    under ["styles"]["style"] is returned. *)
Theorem fetch_styles_outcomes :
  (forall status_code body, status_code <> 200 ->
     fetch_styles (Response status_code body) = Ok (JArr [])) /\
  (forall doc, assoc "styles" doc = None ->
     fetch_styles (Response 200 (Some (JObj doc))) = Ok (JArr [])) /\
  (forall doc j, assoc "styles" doc = Some j -> is_object j = false ->
     fetch_styles (Response 200 (Some (JObj doc))) = Raise AttributeError) /\
  (forall doc styles,
     assoc "styles" doc = Some (JObj styles) ->
     fetch_styles (Response 200 (Some (JObj doc)))
     = Ok (getattr (assoc "style" styles) (JArr []))).
Proof.
  split_and!.
  - intros status_code body Hne. simpl. by apply Nat.eqb_neq in Hne as ->.
  - intros doc Hs. simpl. by rewrite Hs.
  - intros doc j Hs Hj. simpl. rewrite Hs. by destruct j.
  - intros doc styles Hs. simpl. by rewrite Hs.
Qed.

(* ================================================================== *)
(** * Further properties: the five sheets *)

Lemma style_cell_after_group_link (wb : workbook) (r : group_row) :
  c_style (add_layer_group_hyperlinks_row wb r) = c_style r.
Proof.
  unfold add_layer_group_hyperlinks_row.
  destruct (String.eqb (value (c_type r)) "Layer Group"); [|done].
  by destruct (group_lookup wb !! remove_cgs (value (c_layer r))).
Qed.

(** X9. When the report is written from an empty styles listing, the Styles
    sheet has no data row and no style cell of any group's sheet is
    linked, whatever styles the layers name. *)
Theorem no_styles_no_style_links
    (workspaces : list workspace) (stores : list store) (groups : list group)
    (layers : list layer) (wb : workbook) (sheets : list (sheet group_row)) :
  write_to_excel workspaces stores groups layers (JArr []) = Ok (wb, sheets) ->
  rows (Styles wb) = [] /\
  Forall (fun ws => Forall (fun row => hyperlink (c_style row) = None) (rows ws)) sheets.
Proof.
  intros [= <- <-]. split; [done|].
  unfold create_group_worksheets. apply Forall_fmap, Forall_forall. intros g _.
  unfold compose. rewrite create_group_worksheet_rows.
  apply Forall_fmap, Forall_forall. intros n _. unfold compose.
  cbn [group_row_color c_style]. rewrite hyperlink_na_color, style_cell_after_group_link.
  cbn [link_columns_row c_style]. unfold link_from, style_lookup.
  change (style_keys (main_sheets workspaces stores groups layers [])) with (@nil pyval).
  rewrite address_lookup_not_key by apply not_elem_of_nil.
  destruct (populate_child_title_row_keeps
              (main_sheets workspaces stores groups layers []) (member_row layers g n))
    as (_ & _ & _ & _ & _ & _ & ->).
  unfold member_row. by destruct (find _ layers).
Qed.

Lemma no_styles_no_style_links_witness :
  let groups := [group_details first_owner] in
  let wb := main_sheets [lone_workspace] [lone_store] groups [lone_layer] [] in
  let sheets := create_group_worksheets wb groups [lone_layer] in
  rows (Styles wb) = [] /\
  Forall (fun ws => Forall (fun row => hyperlink (c_style row) = None) (rows ws)) sheets.
Proof.
  intros groups wb sheets.
  apply (no_styles_no_style_links [lone_workspace] [lone_store] groups [lone_layer]).
  reflexivity.
Defined.

(** X10. In the Stores sheet the row of a store shows its workspace and its
    name; the workspace cell links to the last row of the Workspaces sheet
    that holds the workspace's name, and has no link when no workspace has
    that name; the name cell is never linked. *)
Theorem stores_sheet_workspace_links (workspaces : list workspace) (stores : list store) :
  Forall2 (fun st row =>
             value (sto_workspace row) = s_workspace_name st /\
             value (sto_name row) = s_store_name st /\
             hyperlink (sto_name row) = None /\
             ((exists i, last_position (w_name <$> workspaces) (s_workspace_name st) i /\
                         links_to "#Workspaces!A" (Some i) (sto_workspace row))
              \/ ((s_workspace_name st ∉ w_name <$> workspaces) /\
                  links_to "#Workspaces!A" None (sto_workspace row))))
          stores (rows (stores_sheet workspaces stores)).
Proof.
  unfold stores_sheet. cbn [rows apply_na_color].
  rewrite <- list_fmap_compose. apply Forall2_fmap_r, Forall_Forall2_diag.
  apply Forall_forall. intros st _. unfold compose, links_to.
  cbn [store_row_color sto_workspace sto_name].
  rewrite !value_na_color, !hyperlink_na_color, value_link_from.
  split_and!; try done.
  destruct (link_from_cross_referenced "Workspaces!A" "#" (w_name <$> workspaces)
              (new_cell (s_workspace_name st))) as [Hin Hout].
  destruct (decide (s_workspace_name st ∈ w_name <$> workspaces)) as [Hk|Hk].
  - left. destruct (Hin Hk) as (i & Hi & Hlink & _). by exists i.
  - right. split; [done|]. by rewrite (Hout Hk).
Qed.

Lemma dict_keys_fresh (seen keys : list string) :
  NoDup (seen ++ keys) ->
  foldl (fun seen k => if bool_decide (k ∈ seen) then seen else seen ++ [k]) seen keys
  = seen ++ keys.
Proof.
  revert seen. induction keys as [|k keys IH]; intros seen Hnd; simpl.
  - by rewrite app_nil_r.
  - assert (k ∉ seen) as Hk.
    { apply NoDup_app in Hnd as (_ & Hdisj & _). intros Hin.
      apply (Hdisj k Hin). by left. }
    rewrite bool_decide_eq_false_2 by done.
    rewrite IH; [by rewrite <- app_assoc|]. by rewrite <- app_assoc.
Qed.

(** X11. When the groups have different names, the name cell of each row of
    the Layer Groups sheet shows the name of its group and links to cell A1
    of the sheet whose title is made from that very name: ["Group "] and the
    first 25 characters of the name. *)
Theorem group_name_links_to_own_sheet (groups : list group) :
  NoDup (grp_group_name <$> groups) ->
  Forall2 (fun g row =>
             value (lgr_name row) = grp_group_name g /\
             hyperlink (lgr_name row)
             = Some ("#'" +:+ group_sheet_title (grp_group_name g) +:+ "'!A1"))
          groups (rows (layer_groups_sheet groups)).
Proof.
  intros Hnd.
  assert (dict_keys (grp_group_name <$> groups) = grp_group_name <$> groups) as Hkeys
    by apply (dict_keys_fresh [] _ Hnd).
  apply Forall2_same_length_lookup_2.
  { unfold layer_groups_sheet, link_group_names. simpl.
    by rewrite length_imap, !length_fmap. }
  intros i g row Hg. unfold layer_groups_sheet, link_group_names. simpl.
  rewrite Hkeys, list_lookup_imap, !list_lookup_fmap, Hg. simpl.
  intros [= <-]. simpl. by rewrite value_na_color.
Qed.

Lemma group_name_links_to_own_sheet_witness :
  Forall2 (fun g row =>
             value (lgr_name row) = grp_group_name g /\
             hyperlink (lgr_name row)
             = Some ("#'" +:+ group_sheet_title (grp_group_name g) +:+ "'!A1"))
          [nesting_group; nested_group]
          (rows (layer_groups_sheet [nesting_group; nested_group])).
Proof.
  refine (group_name_links_to_own_sheet [nesting_group; nested_group] _).
  apply (bool_decide_unpack _). vm_compute. exact I.
Defined.

(* ================================================================== *)
(** * Further properties: the sheets of the groups *)

Lemma find_first_named (before : list layer) (m : layer) (after : list layer) (n : string) :
  lyr_name m = n -> (forall m', m' ∈ before -> lyr_name m' <> n) ->
  find (fun l => String.eqb (lyr_name l) n) (before ++ m :: after) = Some m.
Proof.
  intros Hm. induction before as [|m' before IH]; intros Hbefore; simpl.
  - by apply String.eqb_eq in Hm as ->.
  - destruct (String.eqb_spec (lyr_name m') n) as [Heq|_].
    + destruct (Hbefore m'); [by left | done].
    + apply IH. intros m'' Hin. apply Hbefore. by right.
Qed.

(** X12. A member name that names a layer gets a row that shows the first
    layer of that name: its workspace, store, title and default style, with
    the group's name and title and the type "Layer". *)
Theorem layer_member_row_content
    (workspaces : list workspace) (stores : list store) (groups : list group)
    (layers : list layer) (names : list pyval) (g : group) :
  Forall2 (fun member_name row =>
             forall before m after,
               layers = before ++ m :: after -> lyr_name m = member_name ->
               (forall m', m' ∈ before -> lyr_name m' <> member_name) ->
               shows_layer g m row)
          (split (grp_layers g))
          (rows (create_group_worksheet
                   (main_sheets workspaces stores groups layers names) layers g)).
Proof.
  set (wb := main_sheets workspaces stores groups layers names).
  rewrite create_group_worksheet_rows. apply Forall2_fmap_r, Forall_Forall2_diag.
  apply Forall_forall. intros n _ before m after Hlayers Hm Hbefore. unfold compose.
  set (populated := populate_child_title_row wb (member_row layers g n)).
  destruct (annotated_row_keeps wb populated) as (Hw & Hs & Hg & Hgt & Ht & Hl & Hc).
  unfold shows_layer. rewrite Hw, Hs, Hg, Hgt, Ht, Hl, Hc.
  rewrite annotated_row_keeps_style by (right; apply style_keys_filled).
  assert (member_row layers g n
          = {| c_workspace := new_cell (lyr_workspace_name m);
               c_store := new_cell (lyr_store m);
               c_group := new_cell (grp_group_name g);
               c_group_title := new_cell (grp_title g);
               c_type := new_cell "Layer";
               c_layer := new_cell (lyr_name m);
               c_child_title := new_cell (lyr_title m);
               c_style := new_cell (lyr_default_style m) |}) as Hrow.
  { unfold member_row. by rewrite Hlayers, (find_first_named before m after n Hm Hbefore). }
  unfold populated. rewrite Hrow. by split_and!.
Qed.

Lemma group_names_of_main_sheets
    (workspaces : list workspace) (stores : list store) (groups : list group)
    (layers : list layer) (names : list pyval) :
  group_names (main_sheets workspaces stores groups layers names)
  = grp_group_name <$> groups.
Proof.
  pose proof (layer_groups_sheet_pairs groups) as Hpairs.
  apply (f_equal (fmap fst)) in Hpairs.
  rewrite <- !list_fmap_compose in Hpairs. exact Hpairs.
Qed.

(** X13. In a row typed "Layer Group" whose member, with ["cgs:"] taken
    out, names a group, the member title is the title of the last group of
    that name and the member cell links to the row of that same group in
    the Layer Groups sheet. *)
Theorem layer_group_row_links_to_titled_group
    (workspaces : list workspace) (stores : list store) (groups : list group)
    (layers : list layer) (names : list pyval) (g : group) :
  Forall2 (fun member_name row =>
             value (c_type row) = "Layer Group" ->
             forall i, last_position (grp_group_name <$> groups) (remove_cgs member_name) i ->
             exists g', groups !! i = Some g' /\
                        value (c_child_title row) = grp_title g' /\
                        links_to "#'Layer Groups'!A" (Some i) (c_layer row))
          (split (grp_layers g))
          (rows (create_group_worksheet
                   (main_sheets workspaces stores groups layers names) layers g)).
Proof.
  set (wb := main_sheets workspaces stores groups layers names).
  rewrite create_group_worksheet_rows. apply Forall2_fmap_r, Forall_Forall2_diag.
  apply Forall_forall. intros n _. unfold compose.
  set (populated := populate_child_title_row wb (member_row layers g n)).
  destruct (annotated_row_keeps wb populated) as (_ & _ & _ & _ & Ht & _ & Hc).
  rewrite Ht, Hc. clear Ht Hc. intros Htype i Hlast.
  assert (value (c_type populated) = "Layer Group" /\
          value (c_layer populated) = n /\
          exists g', groups !! i = Some g' /\
                     value (c_child_title populated) = grp_title g')
    as (Htype' & Hname & g' & Hg' & Htitle).
  { unfold populated in *.
    destruct (known_layer_dec layers n) as [Hknown|Hunknown].
    { destruct (populate_child_title_row_keeps wb (member_row layers g n))
        as (_ & _ & _ & _ & Heq & _).
      rewrite Heq in Htype.
      destruct (member_row_known layers g n Hknown) as [Hlayer _].
      rewrite Hlayer in Htype. discriminate. }
    rewrite (member_row_unknown layers g n Hunknown).
    unfold populate_child_title_row. simpl.
    destruct (layer_group_map wb !! remove_cgs n) as [title|] eqn:Hmap; simpl.
    - split; [done|]. split; [done|].
      apply layer_group_map_bound in Hmap as (i' & g' & Hg' & Hlast' & ->).
      rewrite (last_position_unique _ _ _ _ Hlast Hlast'). by exists g'.
    - apply layer_group_map_unbound in Hmap.
      by apply last_position_elem_of in Hlast. }
  exists g'. split; [done|]. split; [done|].
  destruct (annotate_row_annotated wb populated) as (_ & _ & _ & _ & _ & _ & _ & Hlink & _).
  unfold links_to. cbn [group_row_color c_layer]. rewrite hyperlink_na_color.
  rewrite Hname in Hlink. unfold wb in Hlink at 1 2.
  rewrite group_names_of_main_sheets in Hlink.
  destruct (Hlink Htype' (last_position_elem_of _ _ _ Hlast)) as (i' & Hlast' & Heq & _).
  rewrite Heq. by rewrite (last_position_unique _ _ _ _ Hlast Hlast').
Qed.

(* ================================================================== *)
(** * Further properties: the reverse index and the run *)

(** X14. Whatever group the reverse index gives for a name is a group of
    the catalog that lists the name, and the index gives none exactly when
    no group lists it. *)
Theorem reverse_index_names_a_lister (cat : list raw_group) (name : string) :
  match reverse_index cat !! name with
  | Some parent =>
      exists g, g ∈ cat /\ name ∈ member_keys g /\ parent = group_parent_name g
  | None => forall g, g ∈ cat -> name ∉ member_keys g
  end.
Proof.
  unfold reverse_index. induction cat as [|g cat IH] using rev_ind.
  - simpl. rewrite lookup_empty. intros g Hg. by apply elem_of_nil in Hg.
  - rewrite foldl_snoc. unfold associate at 1. rewrite associate_members.
    fold (member_keys g). destruct (decide (name ∈ member_keys g)) as [Hin|Hout].
    + rewrite bool_decide_eq_true_2 by done. exists g.
      split; [|done]. apply elem_of_app. right. by left.
    + rewrite bool_decide_eq_false_2 by done.
      destruct (foldl associate ∅ cat !! name) as [parent|].
      * destruct IH as (g' & Hg' & Hname & ->). exists g'.
        split; [|done]. apply elem_of_app. by left.
      * intros g' [Hg'| ->%list_elem_of_singleton]%elem_of_app; [by apply IH | done].
Qed.

Lemma for_each_length {A B : Type} (body : A -> result B) (l : list A) (ys : list B) :
  for_each body l = Ok ys -> length ys = length l.
Proof.
  revert ys. induction l as [|x l IH]; intros ys; simpl; [by intros [= <-]|].
  destruct (body x) as [y|e]; simpl; [|discriminate].
  destruct (for_each body l) as [ys'|e]; simpl; [|discriminate].
  intros [= <-]. simpl. by rewrite (IH ys').
Qed.

Lemma sorted_length {A K : Type} (lt : K -> K -> bool) (key : A -> K) (l : list A) :
  length (sorted lt key l) = length l.
Proof. apply Permutation_length, sorted_perm. Qed.

(** X15. A run that ends with a report loses no entity and invents none:
    the Workspaces, Stores, Layer Groups and Layers sheets have one data row
    per workspace, store, group and layer of the catalog, and there is one
    further sheet per group. *)
Theorem run_keeps_every_entity
    (cat : catalog) (wb : workbook) (sheets : list (sheet group_row)) :
  run cat = Ok (wb, sheets) ->
  length (rows (Workspaces wb)) = length (cat_workspaces cat) /\
  length (rows (Stores wb)) = length (cat_stores cat) /\
  length (rows (LayerGroups wb)) = length (cat_layergroups cat) /\
  length (rows (Layers wb)) = length (cat_layers cat) /\
  length sheets = length (cat_layergroups cat).
Proof.
  unfold run, fetch_group_details, fetch_layer_details, write_to_excel.
  destruct (for_each _ (cat_layers cat)) as [layers|e] eqn:Hlayers; [|discriminate].
  apply for_each_length in Hlayers. cbn [bind].
  destruct (fetch_styles (cat_styles_response cat)) as [styles|e]; [|discriminate].
  cbn [bind]. destruct (style_names styles) as [names|e]; [|discriminate].
  cbn [bind]. intros [= <- <-].
  unfold create_group_worksheets, fetch_workspace_details, fetch_store_details,
    sort_stores, sort_groups, sort_layers, link_group_names.
  cbn [rows Workspaces Stores LayerGroups Layers main_sheets workspaces_sheet
       stores_sheet layer_groups_sheet layers_sheet apply_na_color
       add_header_hyperlinks_layers add_header_hyperlinks_layer_groups link_header].
  unfold link_group_names.
  rewrite length_imap, !length_fmap, !sorted_length, !length_map.
  by rewrite Hlayers.
Qed.

Lemma run_keeps_every_entity_witness :
  exists wb sheets,
    run small_catalog = Ok (wb, sheets) /\
    length (rows (Layers wb)) = 2 /\ length sheets = 2.
Proof.
  eexists _, _. split; [vm_compute; reflexivity|].
  match goal with
  | |- length (rows (Layers ?wb)) = _ /\ length ?sheets = _ =>
      pose proof (run_keeps_every_entity small_catalog wb sheets) as Hrun
  end.
  destruct Hrun as (_ & _ & _ & Hl & Hs); [vm_compute; reflexivity|].
  split; [exact Hl | exact Hs].
Defined.

(* ================================================================== *)
(** * Further properties: widths, fonts and addresses *)

Lemma foldl_longer (max_length : nat) (cells : list pyval) :
  foldl longer max_length cells = Nat.max max_length (max_list (text_lengths cells)).
Proof.
  revert max_length. induction cells as [|v cells IH]; intros max_length; simpl; [lia|].
  rewrite IH. unfold text_lengths. destruct v as [|s]; simpl; [done|].
  fold (text_lengths cells).
  destruct (Nat.ltb_spec max_length (String.length s)); lia.
Qed.

(** X16. The width of a column is the length of its longest text plus two,
    capped at 50; empty cells do not count and do not stop the run.  So
    every width that is set lies between 2 and 50, one width is set per
    column, and every text of at most 48 characters fits its column. *)
Theorem column_width_bounds :
  (forall cells : list pyval,
     column_width cells = Nat.min (max_list (text_lengths cells) + 2) 50 /\
     (forall s, PyStr s ∈ cells -> String.length s <= 48 ->
                String.length s + 2 <= column_width cells)) /\
  (forall (n_columns : nat) (values : list (list pyval)),
     length (adjust_column_width n_columns values) = n_columns /\
     Forall (fun width => 2 <= width <= 50) (adjust_column_width n_columns values)).
Proof.
  split.
  - intros cells. unfold column_width. rewrite foldl_longer.
    split; [done|].
    intros s Hin Hs.
    assert (String.length s <= max_list (text_lengths cells)) as Hmax.
    { apply max_list_elem_of_le. unfold text_lengths. apply list_elem_of_omap.
      by exists (PyStr s). }
    lia.
  - intros n_columns values. unfold adjust_column_width. split.
    + by rewrite length_fmap, length_seq.
    + apply Forall_fmap, Forall_forall. intros j _. simpl.
      unfold column_width. lia.
Qed.

Lemma marked_na_color {A : Type} `{CellValue A} (c : cell A) :
  cell_font c <> dark_blue_font -> marked (na_color c).
Proof.
  intros Hc. unfold marked. rewrite value_na_color. unfold na_color.
  by destruct (is_na (value c)).
Qed.

Lemma font_link_from {K : Type} `{Countable K} `{CellValue K}
    (lookup : gmap K string) (prefix : string) (c : cell K) :
  cell_font c <> dark_blue_font -> cell_font (link_from lookup prefix c) <> dark_blue_font.
Proof. unfold link_from. by destruct (lookup !! value c). Qed.

Lemma member_row_plain (layers : list layer) (g : group) (n : string) :
  plain_row (member_row layers g n).
Proof. unfold member_row, plain_row. by destruct (find _ layers). Qed.

Lemma populate_child_title_row_plain (wb : workbook) (r : group_row) :
  plain_row r -> plain_row (populate_child_title_row wb r).
Proof.
  unfold populate_child_title_row.
  destruct (String.eqb (value (c_type r)) "Layer Group"); [|done].
  by destruct (layer_group_map wb !! remove_cgs (value (c_layer r))).
Qed.

Lemma link_columns_row_plain (wb : workbook) (r : group_row) :
  plain_row r -> plain_row (link_columns_row wb r).
Proof.
  intros (H1 & H2 & H3 & H4 & H5 & H6 & H7 & H8). unfold plain_row. simpl.
  split_and!; try done; by apply font_link_from.
Qed.

Lemma add_layer_group_hyperlinks_row_plain (wb : workbook) (r : group_row) :
  plain_row r -> plain_row (add_layer_group_hyperlinks_row wb r).
Proof.
  unfold add_layer_group_hyperlinks_row.
  destruct (String.eqb (value (c_type r)) "Layer Group"); [|done].
  destruct (group_lookup wb !! remove_cgs (value (c_layer r))); [|done].
  intros (H1 & H2 & H3 & H4 & H5 & H6 & H7 & H8). unfold plain_row. simpl.
  by split_and!.
Qed.

(** X17. In the finished sheet of a group a data cell has the dark blue font
    exactly when it holds the sentinel ["N/A"], linked or not. *)
Theorem sentinel_cells_are_dark_blue (wb : workbook) (layers : list layer) (g : group) :
  Forall row_marked (rows (create_group_worksheet wb layers g)).
Proof.
  rewrite create_group_worksheet_rows. apply Forall_fmap, Forall_forall.
  intros n _. unfold compose.
  pose proof (add_layer_group_hyperlinks_row_plain wb _
                (link_columns_row_plain wb _
                   (populate_child_title_row_plain wb _ (member_row_plain layers g n))))
    as (H1 & H2 & H3 & H4 & H5 & H6 & H7 & H8).
  unfold row_marked. cbn [group_row_color c_workspace c_store c_group c_group_title
                            c_type c_layer c_child_title c_style].
  split_and!; by apply marked_na_color.
Qed.

Lemma decimal_inj (n m : nat) : decimal n = decimal m -> n = m.
Proof.
  unfold decimal. intros Heq.
  assert (forall k, Nat.to_uint k <> Decimal.Nil) as Hnil.
  { intros k Hk. pose proof (DecimalNat.Unsigned.of_to k) as Hof.
    rewrite Hk in Hof. simpl in Hof. subst k. discriminate. }
  apply (f_equal NilZero.uint_of_string) in Heq.
  rewrite !NilZero.usu in Heq by apply Hnil.
  injection Heq as Heq. by apply DecimalNat.Unsigned.to_uint_inj.
Qed.

Lemma append_inj_r (p s t : string) : p +:+ s = p +:+ t -> s = t.
Proof. induction p as [|c p IH]; simpl; [done|]. intros [= Heq]. by apply IH. Qed.

(** X18. Different names are never sent to the same cell: in a lookup from
    names to cell addresses, two names with the same address are the same
    name. *)
Theorem lookup_addresses_differ {K : Type} `{Countable K}
    (prefix : string) (keys : list K) (k1 k2 : K) (address : string) :
  address_lookup prefix keys !! k1 = Some address ->
  address_lookup prefix keys !! k2 = Some address ->
  k1 = k2.
Proof.
  intros H1 H2.
  apply address_lookup_bound in H1 as (i1 & [Hi1 _] & Ha1).
  apply address_lookup_bound in H2 as (i2 & [Hi2 _] & Ha2).
  rewrite Ha1 in Ha2. apply append_inj_r, decimal_inj in Ha2.
  assert (i1 = i2) as -> by lia. congruence.
Qed.

Lemma lookup_addresses_differ_witness :
  address_lookup "Layers!D" ["L1"; "L2"] !! "L2" = Some "Layers!D3" /\ "L2" = "L2".
Proof.
  split; [vm_compute; reflexivity|].
  apply (lookup_addresses_differ "Layers!D" ["L1"; "L2"] "L2" "L2" "Layers!D3");
    vm_compute; reflexivity.
Defined.
